(** * FireGen: job orchestrator and polling scheduler

    A shallow embedding of [functions/src/job-orchestrator.ts] and
    [functions/src/poller.ts].

    Conventions of the embedding.
    - JavaScript numbers that hold millisecond timestamps and counters are
      integers far below 2^53; they are modelled as [Z].
    - An optional property ([x?: T]) is an [option]; [undefined] is [None].
    - Each handler works on one record of the Realtime Database (the node
      [firegen-jobs/{jobId}]); the state carries that node, the number of
      [Date.now()] readings taken so far and the trace of calls made to the
      external collaborators (record store, model adapter, storage signer,
      task queue, prompt analyzer).
    - The record store accepts every write whose values are all defined and
      rejects, by throwing, a write that holds an [undefined] value; a
      rejected write changes nothing.  Every other collaborator may return
      or throw.  Logger calls have no modelled effect. *)

From Stdlib Require Import ZArith List String Ascii Bool Lia.
From Stdlib Require Import DecimalString DecimalNat.
Import ListNotations.

Local Open Scope string_scope.
Local Open Scope Z_scope.

(** ** JSON payloads (requests and raw backend responses) *)

#[local] Set Warnings "-register-all".

Inductive json : Type :=
| JNull
| JBool (b : bool)
| JNum (z : Z)
| JStr (s : string)
| JArr (items : list json)
| JObj (members : list (string * json)).

(** JavaScript truthiness, as used by [if (x)], [!x] and [x || y]. *)
Definition truthy_string (s : string) : bool :=
  negb (String.eqb s "").

Definition truthy_opt_string (o : option string) : bool :=
  match o with
  | Some s => truthy_string s
  | None => false
  end.

Definition truthy_opt_number (o : option Z) : bool :=
  match o with
  | Some z => negb (Z.eqb z 0)
  | None => false
  end.

Definition truthy_json (j : json) : bool :=
  match j with
  | JNull => false
  | JBool b => b
  | JNum z => negb (Z.eqb z 0)
  | JStr s => truthy_string s
  | JArr _ => true
  | JObj _ => true
  end.

(** ** The job record ([JobNode]) *)

Inductive JobStatus : Type :=
| requested | starting | running | succeeded | failed | expired | canceled.

Definition JobStatus_eqb (a b : JobStatus) : bool :=
  match a, b with
  | requested, requested | starting, starting | running, running
  | succeeded, succeeded | failed, failed | expired, expired
  | canceled, canceled => true
  | _, _ => false
  end.

Record FileInfo : Type := mkFileInfo {
  name : string;
  gs : string;
  https : string;
  fi_mimeType : option string;
  fi_size : option Z
}.

Record ErrorDetails : Type := mkErrorDetails {
  err_name : string;
  err_stack : option string
}.

Record JobError : Type := mkJobError {
  code : string;
  message : string;
  details : option ErrorDetails
}.

Record Assisted : Type := mkAssisted {
  prompt : string;
  reasons : list string
}.

Record Metadata : Type := mkMetadata {
  version : option string;
  createdAt : option Z;
  updatedAt : option Z;
  operation : option string;
  ttl : option Z;
  attempt : option Z;
  nextPoll : option Z;
  lastError : option Z
}.

Record JobNode : Type := mkJobNode {
  uid : string;
  model : string;
  status : JobStatus;
  request : json;
  assisted : option Assisted;
  response : option json;
  files : option (list FileInfo);
  error : option JobError;
  metadata : option Metadata
}.

Definition empty_metadata : Metadata :=
  mkMetadata None None None None None None None None.

(** [job.metadata?.ttl] and friends. *)
Definition meta_field {A : Type} (f : Metadata -> option A) (job : JobNode)
  : option A :=
  match metadata job with
  | Some m => f m
  | None => None
  end.

(** ** Field-path keyed updates

    One constructor per key that appears in an object literal handed to
    [jobRef.update]; a payload is the list of its keys in source order. *)

Inductive FieldWrite : Type :=
| W_status (s : JobStatus)
| W_response (r : json)
| W_files (f : option (list FileInfo))
| W_error (e : JobError)
| W_meta_updatedAt (t : Z)
| W_meta_operation (op : string)
| W_meta_ttl (t : Z)
| W_meta_attempt (n : Z)
| W_meta_nextPoll (t : Z)
| W_meta_lastError (t : Z).

Definition UpdatePayload : Type := list FieldWrite.

Definition with_metadata (f : Metadata -> Metadata) (j : JobNode) : JobNode :=
  let m := match metadata j with Some m => m | None => empty_metadata end in
  mkJobNode (uid j) (model j) (status j) (request j) (assisted j)
            (response j) (files j) (error j) (Some (f m)).

(** Effect of one key on the stored node.  A key under [metadata/] creates
    the [metadata] child when it is missing.  The store rejects a payload
    that holds an [undefined] value before anything is applied (see
    [undefined_key] and [db_update]), so the case [W_files None] is never
    applied to a stored node. *)
Definition apply_write (j : JobNode) (w : FieldWrite) : JobNode :=
  match w with
  | W_status s =>
      mkJobNode (uid j) (model j) s (request j) (assisted j)
                (response j) (files j) (error j) (metadata j)
  | W_response r =>
      mkJobNode (uid j) (model j) (status j) (request j) (assisted j)
                (Some r) (files j) (error j) (metadata j)
  | W_files (Some f) =>
      mkJobNode (uid j) (model j) (status j) (request j) (assisted j)
                (response j) (Some f) (error j) (metadata j)
  | W_files None => j
  | W_error e =>
      mkJobNode (uid j) (model j) (status j) (request j) (assisted j)
                (response j) (files j) (Some e) (metadata j)
  | W_meta_updatedAt t =>
      with_metadata (fun m =>
        mkMetadata (version m) (createdAt m) (Some t) (operation m)
                   (ttl m) (attempt m) (nextPoll m) (lastError m)) j
  | W_meta_operation op =>
      with_metadata (fun m =>
        mkMetadata (version m) (createdAt m) (updatedAt m) (Some op)
                   (ttl m) (attempt m) (nextPoll m) (lastError m)) j
  | W_meta_ttl t =>
      with_metadata (fun m =>
        mkMetadata (version m) (createdAt m) (updatedAt m) (operation m)
                   (Some t) (attempt m) (nextPoll m) (lastError m)) j
  | W_meta_attempt n =>
      with_metadata (fun m =>
        mkMetadata (version m) (createdAt m) (updatedAt m) (operation m)
                   (ttl m) (Some n) (nextPoll m) (lastError m)) j
  | W_meta_nextPoll t =>
      with_metadata (fun m =>
        mkMetadata (version m) (createdAt m) (updatedAt m) (operation m)
                   (ttl m) (attempt m) (Some t) (lastError m)) j
  | W_meta_lastError t =>
      with_metadata (fun m =>
        mkMetadata (version m) (createdAt m) (updatedAt m) (operation m)
                   (ttl m) (attempt m) (nextPoll m) (Some t)) j
  end.

Definition apply_update (j : JobNode) (u : UpdatePayload) : JobNode :=
  fold_left apply_write u j.

(** The first key of a payload whose value is [undefined], if any.  Only
    [files] can be: it is the one key that the handlers compute with
    [... ? files : undefined]. *)
Fixpoint undefined_key (u : UpdatePayload) : option string :=
  match u with
  | [] => None
  | W_files None :: _ => Some "files"
  | _ :: rest => undefined_key rest
  end.

(** ** Values that can be thrown and caught *)

Record ZodIssue : Type := mkZodIssue {
  path : list string;
  issue_message : string
}.

Inductive Thrown : Type :=
| ThrownZodError (errors : list ZodIssue) (zmessage : string)
                 (stack : option string)
| ThrownError (ename emessage : string) (stack : option string)
| ThrownObject (omessage : option string)
| ThrownPrimitive.

Definition new_Error (msg : string) : Thrown :=
  ThrownError "Error" msg None.

(** [err && typeof err === "object" && "message" in err &&
     typeof err.message === "string" ? err.message : dflt] *)
Definition message_or (dflt : string) (err : Thrown) : string :=
  match err with
  | ThrownZodError _ m _ => m
  | ThrownError _ m _ => m
  | ThrownObject (Some m) => m
  | ThrownObject None => dflt
  | ThrownPrimitive => dflt
  end.

(** [err instanceof Error ? {name: err.name, stack: err.stack} : undefined] *)
Definition error_details (err : Thrown) : option ErrorDetails :=
  match err with
  | ThrownZodError _ _ st => Some (mkErrorDetails "ZodError" st)
  | ThrownError n _ st => Some (mkErrorDetails n st)
  | ThrownObject _ => None
  | ThrownPrimitive => None
  end.

(** The node that the analyzer writes on failure holds
    [details: err instanceof Error ? {name, stack} : undefined]: the key
    [error/details] is [undefined] for a thrown value that is not an
    [Error], and [error/details/stack] is for an [Error] without a stack. *)
Definition undefined_in_failure (err : Thrown) : option string :=
  match error_details err with
  | None => Some "error/details"
  | Some d =>
      match err_stack d with
      | None => Some "error/details/stack"
      | Some _ => None
      end
  end.

(** ** Adapter contract *)

Record ModelOutput : Type := mkModelOutput {
  uri : option string;
  mimeType : option string;
  size : option Z;
  text : option string
}.

Record StartResult : Type := mkStartResult {
  operationName : option string;
  output : option ModelOutput;
  rawResponse : option json
}.

Record Analyzed : Type := mkAnalyzed {
  a_model : string;
  a_request : json;
  a_reasons : list string
}.

Inductive Outcome (A : Type) : Type :=
| Returns (a : A)
| Throws (e : Thrown).
Arguments Returns {A} a.
Arguments Throws {A} e.

(** ** The environment: configuration and external collaborators

    [JOB_TTL_MS] and [POLL_INTERVAL_MS] come from [config.ts];
    [isValidModelId] and the adapters from [models/index.ts];
    [generateSignedUrl] from [storage.ts]; [assistedRequest] from
    [assisted-mode/index.ts].  None of them is part of the files embedded
    here, so they are fields of the environment.  [clock n] is the value of
    the [n]-th reading of [Date.now()].  [store_rejection path key] is the
    message of the error that the record store throws when a write to
    [path] holds [undefined] under [key]. *)

Record Env : Type := mkEnv {
  JOB_TTL_MS : Z;
  POLL_INTERVAL_MS : Z;
  EXT_INSTANCE_ID : option string;
  isValidModelId : string -> bool;
  adapter_start : string -> json -> string -> Outcome StartResult;
  generateSignedUrl : string -> Outcome (option string);
  queue_enqueue : string -> string -> string -> Z -> Z -> Outcome unit;
  assistedRequest : string -> string -> Outcome Analyzed;
  clock : nat -> Z;
  store_rejection : string -> string -> string
}.

Definition FIREGEN_VERSION : string := "0.3.3".

(** ** Observable calls *)

Inductive Event : Type :=
| EvUpdate (jobPath : string) (u : UpdatePayload)
| EvSet (jobPath : string) (j : JobNode)
| EvAdapterStart (modelId : string) (req : json) (jobId : string)
| EvSignUrl (gcsUri : string)
| EvEnqueue (queue extensionId jobPath : string)
            (scheduleDelaySeconds dispatchDeadlineSeconds : Z)
| EvAnalyze (text jobId : string).

Record State : Type := mkState {
  store : JobNode;
  ticks : nat;
  trace : list Event
}.

(** ** A state and exception monad for the handlers *)

Inductive Result (A : Type) : Type :=
| Ok (a : A)
| Throw (e : Thrown).
Arguments Ok {A} a.
Arguments Throw {A} e.

Definition M (A : Type) : Type := State -> Result A * State.

Definition ret {A : Type} (a : A) : M A := fun st => (Ok a, st).

Definition bind {A B : Type} (c : M A) (k : A -> M B) : M B :=
  fun st =>
    match c st with
    | (Ok a, st') => k a st'
    | (Throw e, st') => (Throw e, st')
    end.

Definition throw {A : Type} (e : Thrown) : M A := fun st => (Throw e, st).

Definition try_catch {A : Type} (body : M A) (handler : Thrown -> M A) : M A :=
  fun st =>
    match body st with
    | (Ok a, st') => (Ok a, st')
    | (Throw e, st') => handler e st'
    end.

Notation "x <- c1 ;; c2" := (bind c1 (fun x => c2))
  (at level 61, c1 at next level, right associativity).
Notation "c1 ;; c2" := (bind c1 (fun _ => c2))
  (at level 61, right associativity).

Definition emit (e : Event) : M unit :=
  fun st => (Ok tt, mkState (store st) (ticks st) (trace st ++ [e])%list).

Definition lift_outcome {A : Type} (o : Outcome A) : M A :=
  match o with
  | Returns a => ret a
  | Throws e => throw e
  end.

Definition final_state {A : Type} (r : Result A * State) : State := snd r.
Definition outcome_of {A : Type} (r : Result A * State) : Result A := fst r.

Section Handlers.

Variable env : Env.

(** [Date.now()] *)
Definition date_now : M Z :=
  fun st => (Ok (clock env (ticks st)),
             mkState (store st) (S (ticks st)) (trace st)).

(** The error with which the record store rejects an [undefined] value.
    Its stack is never read: the [catch] of [startJob] reads the message
    only, and nothing catches a rejection of the analyzer's failure
    write. *)
Definition store_error (jobPath key : string) : Thrown :=
  ThrownError "Error" (store_rejection env jobPath key) None.

(** [db.ref(jobPath).update(payload)]: the call is made; a payload with an
    [undefined] value is rejected and leaves the node as it is. *)
Definition db_update (jobPath : string) (u : UpdatePayload) : M unit :=
  fun st =>
    match undefined_key u with
    | Some key =>
        (Throw (store_error jobPath key),
         mkState (store st) (ticks st) (trace st ++ [EvUpdate jobPath u])%list)
    | None =>
        (Ok tt,
         mkState (apply_update (store st) u) (ticks st)
                 (trace st ++ [EvUpdate jobPath u])%list)
    end.

(** [jobRef.set(node)], where [undefined_at] is the key of the object
    literal whose value is [undefined], if there is one: such a node is
    rejected and nothing is stored. *)
Definition db_set (jobPath : string) (j : JobNode)
  (undefined_at : option string) : M unit :=
  fun st =>
    match undefined_at with
    | Some key =>
        (Throw (store_error jobPath key),
         mkState (store st) (ticks st) (trace st ++ [EvSet jobPath j])%list)
    | None =>
        (Ok tt, mkState j (ticks st) (trace st ++ [EvSet jobPath j])%list)
    end.

(** *** poller.ts *)

(** [Math.ceil(delayMs / 1000)] on an integer number of milliseconds. *)
Definition ceil_div_1000 (delayMs : Z) : Z := - ((- delayMs) / 1000).

Definition job_path (jobId : string) : string := "firegen-jobs/" ++ jobId.

Definition enqueuePollTask_with (jobId : string) (delayMs : Z) : M unit :=
  let jobPath := job_path jobId in
  let extensionId :=
    match EXT_INSTANCE_ID env with
    | Some s => if truthy_string s then s else "firegen"
    | None => "firegen"
    end in
  let delay := ceil_div_1000 delayMs in
  emit (EvEnqueue "onJobPoll" extensionId jobPath delay 60) ;;
  lift_outcome (queue_enqueue env "onJobPoll" extensionId jobPath delay 60).

(** [enqueuePollTask(jobId)] with the default [delayMs = POLL_INTERVAL_MS]. *)
Definition enqueuePollTask (jobId : string) : M unit :=
  enqueuePollTask_with jobId (POLL_INTERVAL_MS env).

Definition isJobExpired (job : JobNode) : M bool :=
  if negb (truthy_opt_number (meta_field ttl job)) then ret false
  else
    now <- date_now ;;
    ret (match meta_field ttl job with
         | Some t => Z.ltb t now
         | None => false
         end).

Definition isJobTerminal (job : JobNode) : bool :=
  existsb (JobStatus_eqb (status job)) [succeeded; failed; expired; canceled].

Definition initializeJobMetadata : M Metadata :=
  now <- date_now ;;
  ret (mkMetadata (Some FIREGEN_VERSION) (Some now) (Some now) None
                  (Some (now + JOB_TTL_MS env)) (Some 0)
                  (Some (now + POLL_INTERVAL_MS env)) None).

Definition incrementPollAttempt (jobPath : string) (currentAttempt : Z)
  : M unit :=
  t1 <- date_now ;;
  t2 <- date_now ;;
  db_update jobPath
    [ W_meta_attempt (currentAttempt + 1);
      W_meta_nextPoll (t1 + POLL_INTERVAL_MS env);
      W_meta_updatedAt t2 ].

Definition recordPollError (jobPath : string) (currentAttempt : Z) : M unit :=
  t1 <- date_now ;;
  t2 <- date_now ;;
  t3 <- date_now ;;
  db_update jobPath
    [ W_meta_attempt (currentAttempt + 1);
      W_meta_nextPoll (t1 + POLL_INTERVAL_MS env);
      W_meta_lastError t2;
      W_meta_updatedAt t3 ].

(** *** job-orchestrator.ts *)

(** The character class [[a-z0-9]] under the [i] flag. *)
Definition is_alnum (c : ascii) : bool :=
  let n := nat_of_ascii c in
  (Nat.leb 48 n && Nat.leb n 57)
  || (Nat.leb 65 n && Nat.leb n 90)
  || (Nat.leb 97 n && Nat.leb n 122).

Fixpoint all_alnum (s : string) : bool :=
  match s with
  | EmptyString => true
  | String c r => is_alnum c && all_alnum r
  end.

(** [s.match(/\.([a-z0-9]+)$/i)]: the leftmost position holding a dot that
    is followed, up to the end of the string, by one or more characters of
    the class.  The result is the captured group. *)
Fixpoint match_extension (s : string) : option string :=
  match s with
  | EmptyString => None
  | String c r =>
      if Ascii.eqb c "." && truthy_string r && all_alnum r then Some r
      else match_extension r
  end.

(** What [getFileExtension] can return: a string, or, since [typeMap] is an
    object literal indexed with an arbitrary string, a member that the
    literal inherits from [Object.prototype]. *)
Inductive ExtValue : Type :=
| ExtText (s : string)
| ExtInherited (key : string).

Coercion ExtText : string >-> ExtValue.

(** The own properties of the literal [typeMap]. *)
Definition typeMap_own : list (string * string) :=
  [ ("video/mp4", ".mp4");
    ("image/png", ".png");
    ("image/jpeg", ".jpg");
    ("audio/wav", ".wav");
    ("audio/mpeg", ".mp3") ].

(** The property names of [Object.prototype]. *)
Definition object_prototype_keys : list string :=
  [ "constructor"; "__defineGetter__"; "__defineSetter__"; "hasOwnProperty";
    "__lookupGetter__"; "__lookupSetter__"; "isPrototypeOf";
    "propertyIsEnumerable"; "toString"; "valueOf"; "__proto__";
    "toLocaleString" ].

Fixpoint own_entry (table : list (string * string)) (key : string)
  : option string :=
  match table with
  | [] => None
  | (k, v) :: rest => if String.eqb k key then Some v else own_entry rest key
  end.

(** [typeMap[mimeType]]: the own entry, else the inherited member, else
    [undefined]. *)
Definition typeMap (mime : string) : option ExtValue :=
  match own_entry typeMap_own mime with
  | Some e => Some (ExtText e)
  | None =>
      if existsb (String.eqb mime) object_prototype_keys
      then Some (ExtInherited mime)
      else None
  end.

(** Every own entry is a non-empty string and every inherited member is a
    function or an object, so [typeMap[mimeType] || ""] keeps whatever the
    lookup finds. *)
Definition getFileExtension (uri_ : option string) (mimeType_ : option string)
  : ExtValue :=
  let from_mime :=
    match mimeType_ with
    | Some m =>
        if truthy_string m
        then match typeMap m with Some e => e | None => ExtText "" end
        else ExtText ""
    | None => ExtText ""
    end in
  match uri_ with
  | Some u =>
      if truthy_string u
      then match match_extension u with
           | Some e => ExtText ("." ++ e)
           | None => from_mime
           end
      else from_mime
  | None => from_mime
  end.

(** The text that a template literal ([`file0${ext}`]) gives for the value,
    as Node.js renders built-in functions and plain objects. *)
Definition ext_text (v : ExtValue) : string :=
  match v with
  | ExtText s => s
  | ExtInherited key =>
      if String.eqb key "__proto__" then "[object Object]"
      else if String.eqb key "constructor"
      then "function Object() { [native code] }"
      else "function " ++ key ++ "() { [native code] }"
  end.

(** [signedUrl || ""] *)
Definition or_empty (o : option string) : string :=
  match o with
  | Some s => s
  | None => ""
  end.

(** [result.rawResponse || {}] *)
Definition raw_or_empty (o : option json) : json :=
  match o with
  | Some r => if truthy_json r then r else JObj []
  | None => JObj []
  end.

(** The [files] array built on the synchronous path. *)
Definition build_files (out : ModelOutput) : M (list FileInfo) :=
  match uri out with
  | Some u =>
      if truthy_string u then
        let ext := getFileExtension (uri out) (mimeType out) in
        let filename := "file0" ++ ext_text ext in
        emit (EvSignUrl u) ;;
        signedUrl <- lift_outcome (generateSignedUrl env u) ;;
        ret [ mkFileInfo filename u (or_empty signedUrl)
                (if truthy_opt_string (mimeType out) then mimeType out
                 else None)
                (size out) ]
      else ret []
  | None => ret []
  end.

(** The code and message computed by the [catch] block of [startJob]. *)
Definition render_issue (e : ZodIssue) : string :=
  String.concat "." (path e) ++ ": " ++ issue_message e.

Definition start_failure (err : Thrown) : JobError :=
  match err with
  | ThrownZodError errs _ _ =>
      mkJobError "VALIDATION_ERROR"
        ("Validation failed: " ++ String.concat ", " (map render_issue errs))
        None
  | _ => mkJobError "START_FAILED" (message_or "Start failed" err) None
  end.

Definition startJob (jobId : string) (job : JobNode) : M unit :=
  let jobPath := job_path jobId in
  try_catch
    (t0 <- date_now ;;
     db_update jobPath [ W_status starting; W_meta_updatedAt t0 ] ;;
     let modelId := model job in
     if negb (isValidModelId env modelId)
     then throw (new_Error ("Unknown model ID: " ++ modelId))
     else
       emit (EvAdapterStart modelId (request job) jobId) ;;
       result <- lift_outcome (adapter_start env modelId (request job) jobId) ;;
       if truthy_opt_string (operationName result) then
         now <- date_now ;;
         db_update jobPath
           [ W_status running;
             W_meta_updatedAt now;
             W_meta_operation (or_empty (operationName result));
             W_meta_ttl (now + JOB_TTL_MS env);
             W_meta_attempt 0;
             W_meta_nextPoll (now + POLL_INTERVAL_MS env) ] ;;
         enqueuePollTask jobId
       else
         match output result with
         | Some out =>
             files_ <- build_files out ;;
             t1 <- date_now ;;
             db_update jobPath
               [ W_status succeeded;
                 W_response (raw_or_empty (rawResponse result));
                 W_files (if Nat.ltb 0 (List.length files_) then Some files_
                          else None);
                 W_meta_updatedAt t1 ]
         | None => throw (new_Error "Model adapter returned invalid result")
         end)
    (fun err =>
       t2 <- date_now ;;
       db_update jobPath
         [ W_status failed;
           W_error (start_failure err);
           W_meta_updatedAt t2 ]).

(** [jobRef] is the reference of the node [firegen-jobs/{jobId}]. *)
Definition analyzeAndTransformJob (jobId prompt_ uid_ : string) : M unit :=
  let jobRef := job_path jobId in
  try_catch
    (emit (EvAnalyze prompt_ jobId) ;;
     analyzed <- lift_outcome (assistedRequest env prompt_ jobId) ;;
     now <- date_now ;;
     let completeJob :=
       mkJobNode uid_ (a_model analyzed) requested (a_request analyzed)
         (Some (mkAssisted prompt_ (a_reasons analyzed)))
         None None None
         (Some (mkMetadata (Some FIREGEN_VERSION) (Some now) (Some now) None
                  (Some (now + JOB_TTL_MS env)) (Some 0)
                  (Some (now + POLL_INTERVAL_MS env)) None)) in
     db_set jobRef completeJob None ;;
     startJob jobId completeJob)
    (fun err =>
       let message_ := message_or "AI analysis failed" err in
       now <- date_now ;;
       db_set jobRef
         (mkJobNode uid_ "unknown" failed (JObj [])
            (Some (mkAssisted prompt_ []))
            None None
            (Some (mkJobError "AI_ANALYSIS_FAILED"
                     ("AI analysis failed: " ++ message_)
                     (error_details err)))
            (Some (mkMetadata (Some FIREGEN_VERSION) (Some now) (Some now)
                     None None None None None)))
         (undefined_in_failure err)).

End Handlers.

(** ** Reading traces *)

Definition is_adapter_start (e : Event) : bool :=
  match e with EvAdapterStart _ _ _ => true | _ => false end.

Definition is_analyze (e : Event) : bool :=
  match e with EvAnalyze _ _ => true | _ => false end.

Definition is_store_write (e : Event) : bool :=
  match e with EvUpdate _ _ | EvSet _ _ => true | _ => false end.

Definition count_events (p : Event -> bool) (t : list Event) : nat :=
  List.length (filter p t).

(** Backend submissions made during a run: the calls of an adapter's
    [start]. *)
Definition backend_submissions (t : list Event) : nat :=
  count_events is_adapter_start t.

Definition init_state (j : JobNode) : State := mkState j 0 [].

(** ** URL tagging codec of the request analyzer

    The codec lives in [assisted-mode/], of which only the test fixtures
    are among the embedded files.  Its definitions below follow the
    specification of passes 1 and 4 of the analyzer; the placeholder syntax
    follows the changelog entry of release 0.3.1. *)

Module UrlCodec.

Local Open Scope nat_scope.




(** What the scan of a text yields: plain characters and references. *)
Inductive Piece : Type :=
| Chr (c : ascii)
| Ref (u : string).

Fixpoint text_pieces (s : string) : list Piece :=
  match s with
  | EmptyString => []
  | String c r => Chr c :: text_pieces r
  end.



































End UrlCodec.

(** ** Payloads, named for the statements below *)

Definition starting_payload (t : Z) : UpdatePayload :=
  [ W_status starting; W_meta_updatedAt t ].

Definition running_payload (env : Env) (op : string) (now : Z)
  : UpdatePayload :=
  [ W_status running;
    W_meta_updatedAt now;
    W_meta_operation op;
    W_meta_ttl (now + JOB_TTL_MS env);
    W_meta_attempt 0;
    W_meta_nextPoll (now + POLL_INTERVAL_MS env) ].

Definition succeeded_payload (res : StartResult)
  (fs : option (list FileInfo)) (t : Z) : UpdatePayload :=
  [ W_status succeeded;
    W_response (raw_or_empty (rawResponse res));
    W_files fs;
    W_meta_updatedAt t ].

Definition failed_payload (err : Thrown) (t : Z) : UpdatePayload :=
  [ W_status failed; W_error (start_failure err); W_meta_updatedAt t ].

Definition poll_error_payload (env : Env) (currentAttempt t1 t2 t3 : Z)
  : UpdatePayload :=
  [ W_meta_attempt (currentAttempt + 1);
    W_meta_nextPoll (t1 + POLL_INTERVAL_MS env);
    W_meta_lastError t2;
    W_meta_updatedAt t3 ].

(** The single file entry of a synchronous completion. *)
Definition file0_entry (out : ModelOutput) (u : string)
  (signedUrl : option string) : FileInfo :=
  mkFileInfo ("file0" ++ ext_text (getFileExtension (uri out) (mimeType out)))
             u
             (or_empty signedUrl)
             (if truthy_opt_string (mimeType out) then mimeType out else None)
             (size out).

(** The adapter output contains a media reference. *)
Definition has_media_reference (out : ModelOutput) : bool :=
  truthy_opt_string (uri out).

Definition extension_id (env : Env) : string :=
  match EXT_INSTANCE_ID env with
  | Some s => if truthy_string s then s else "firegen"
  | None => "firegen"
  end.

Definition first_poll_event (env : Env) (jobId : string) : Event :=
  EvEnqueue "onJobPoll" (extension_id env) (job_path jobId)
            (ceil_div_1000 (POLL_INTERVAL_MS env)) 60.

(** The node written by the analyzer when the analysis succeeds. *)
Definition transformed_job (env : Env) (uid_ prompt_ : string)
  (a : Analyzed) (now : Z) : JobNode :=
  mkJobNode uid_ (a_model a) requested (a_request a)
    (Some (mkAssisted prompt_ (a_reasons a)))
    None None None
    (Some (mkMetadata (Some FIREGEN_VERSION) (Some now) (Some now) None
             (Some (now + JOB_TTL_MS env)) (Some 0)
             (Some (now + POLL_INTERVAL_MS env)) None)).

(** The node written by the analyzer when the analysis throws. *)
Definition analysis_failed_job (uid_ prompt_ : string) (err : Thrown)
  (now : Z) : JobNode :=
  mkJobNode uid_ "unknown" failed (JObj [])
    (Some (mkAssisted prompt_ []))
    None None
    (Some (mkJobError "AI_ANALYSIS_FAILED"
             ("AI analysis failed: " ++ message_or "AI analysis failed" err)
             (error_details err)))
    (Some (mkMetadata (Some FIREGEN_VERSION) (Some now) (Some now)
             None None None None None)).

(** Keys of a payload. *)
Definition sets_poll_deadline (w : FieldWrite) : bool :=
  match w with
  | W_meta_ttl _ | W_meta_nextPoll _ => true
  | _ => false
  end.

Definition sets_status (s : JobStatus) (w : FieldWrite) : bool :=
  match w with
  | W_status s' => JobStatus_eqb s s'
  | _ => false
  end.

(** The value under the key [files] of a payload, when the key is there. *)
Fixpoint payload_files (u : UpdatePayload) : option (option (list FileInfo)) :=
  match u with
  | [] => None
  | W_files f :: _ => Some f
  | _ :: rest => payload_files rest
  end.

(** The [files] values of the writes of a trace that set [succeeded]. *)
Fixpoint success_files (t : list Event) : list (option (list FileInfo)) :=
  match t with
  | [] => []
  | EvUpdate _ u :: rest =>
      if existsb (sets_status succeeded) u
      then match payload_files u with
           | Some f => f :: success_files rest
           | None => None :: success_files rest
           end
      else success_files rest
  | _ :: rest => success_files rest
  end.

(** ** Sample environments and jobs *)

Module Samples.

Definition video_request : json :=
  JObj [ ("model", JStr "veo-3.1-fast-generate-preview");
         ("instances", JArr [ JObj [ ("prompt", JStr "a serene sunset") ] ]) ].

Definition registry (m : string) : bool :=
  String.eqb m "veo-3.1-generate-preview"
  || String.eqb m "veo-3.1-fast-generate-preview"
  || String.eqb m "gemini-2.5-flash-image"
  || String.eqb m "gemini-2.5-flash-preview-tts"
  || String.eqb m "gemini-2.5-pro-preview-tts".

Definition image_output : ModelOutput :=
  mkModelOutput (Some "gs://bucket/firegen-jobs/job-2/image.png")
                (Some "image/png") (Some 2048) None.

Definition text_output : ModelOutput :=
  mkModelOutput None None None (Some "hello").

(** Veo answers with an operation handle, the image model with a stored
    image, the flash TTS model with text only; the pro TTS model answers
    with neither and the standard Veo model with both. *)
Definition sample_start (m : string) (_ : json) (_ : string)
  : Outcome StartResult :=
  if String.eqb m "veo-3.1-fast-generate-preview"
  then Returns (mkStartResult (Some "operations/op-1") None None)
  else if String.eqb m "gemini-2.5-flash-image"
  then Returns (mkStartResult None (Some image_output)
                              (Some (JObj [("candidates", JArr [])])))
  else if String.eqb m "gemini-2.5-flash-preview-tts"
  then Returns (mkStartResult None (Some text_output) None)
  else if String.eqb m "gemini-2.5-pro-preview-tts"
  then Returns (mkStartResult None None None)
  else if String.eqb m "veo-3.1-generate-preview"
  then Returns (mkStartResult (Some "operations/op-2") (Some image_output)
                              None)
  else Throws (new_Error "no adapter").

Definition sample_sign (u : string) : Outcome (option string) :=
  Returns (Some ("https://storage.googleapis.com/signed?u=" ++ u)).

(** What the language-model client throws on an answer that is not JSON. *)
Definition malformed_json : Thrown :=
  ThrownError "SyntaxError" "model returned malformed JSON"
    (Some "SyntaxError: model returned malformed JSON at JSON.parse").

Definition sample_analyzer (text _ : string) : Outcome Analyzed :=
  if String.prefix "Create" text
  then Returns (mkAnalyzed "veo-3.1-fast-generate-preview" video_request
                           ["video requested"; "duration 4"])
  else Throws malformed_json.

Definition sample_rejection (path key : string) : string :=
  "update failed: values argument contains undefined in property '"
  ++ path ++ "." ++ key ++ "'".

(** Ninety minutes, one second, and a clock that advances one millisecond
    per reading. *)
Definition sample_env : Env :=
  mkEnv 5400000 1000 None registry sample_start sample_sign
        (fun _ _ _ _ _ => Returns tt) sample_analyzer
        (fun n => 1700000000000 + Z.of_nat n) sample_rejection.

Definition job_for (m : string) (s : JobStatus) : JobNode :=
  mkJobNode "user-123" m s video_request None None None None None.

Definition video_job : JobNode := job_for "veo-3.1-fast-generate-preview" requested.
Definition image_job : JobNode := job_for "gemini-2.5-flash-image" requested.
Definition text_job : JobNode := job_for "gemini-2.5-flash-preview-tts" requested.
Definition neither_job : JobNode := job_for "gemini-2.5-pro-preview-tts" requested.
Definition both_job : JobNode := job_for "veo-3.1-generate-preview" requested.
Definition unknown_job : JobNode := job_for "imagen-9" requested.

(** A video job after its first delivery to [startJob]. *)
Definition after_first_delivery : State :=
  final_state (startJob sample_env "job-1" video_job (init_state video_job)).

(** A running job as the poller sees it. *)
Definition running_job : JobNode :=
  mkJobNode "user-123" "veo-3.1-fast-generate-preview" running video_request
    None None None None
    (Some (mkMetadata (Some FIREGEN_VERSION) (Some 1700000000000)
             (Some 1700000000001) (Some "operations/op-1")
             (Some 1700005400001) (Some 3) (Some 1700000001001) None)).

(** A record whose [ttl] is the number zero. *)
Definition zero_ttl_job : JobNode :=
  mkJobNode "user-123" "veo-3.1-fast-generate-preview" running video_request
    None None None None
    (Some (mkMetadata None None None None (Some 0) None None None)).

End Samples.

(** ** Further readings of payloads, traces and runs *)

Definition is_sign_url (e : Event) : bool :=
  match e with EvSignUrl _ => true | _ => false end.

Definition is_enqueue (e : Event) : bool :=
  match e with EvEnqueue _ _ _ _ _ => true | _ => false end.

Definition is_set (e : Event) : bool :=
  match e with EvSet _ _ => true | _ => false end.

Definition sets_error (w : FieldWrite) : bool :=
  match w with W_error _ => true | _ => false end.

Definition sets_response (w : FieldWrite) : bool :=
  match w with W_response _ => true | _ => false end.

(** The payload has the key [files], whatever value stands under it. *)
Definition sets_files (w : FieldWrite) : bool :=
  match w with W_files _ => true | _ => false end.

Definition sets_operation (w : FieldWrite) : bool :=
  match w with W_meta_operation _ => true | _ => false end.

Definition sets_updatedAt (w : FieldWrite) : bool :=
  match w with W_meta_updatedAt _ => true | _ => false end.

Definition sets_any_status (w : FieldWrite) : bool :=
  match w with W_status _ => true | _ => false end.

(** The string holds a dot. *)
Fixpoint has_dot (s : string) : bool :=
  match s with
  | EmptyString => false
  | String c r => Ascii.eqb c "." || has_dot r
  end.

(** The adapter is reached and answers with an operation handle. *)
Definition takes_async_path (env : Env) (jobId : string) (job : JobNode)
  : bool :=
  isValidModelId env (model job)
  && match adapter_start env (model job) (request job) jobId with
     | Returns res => truthy_opt_string (operationName res)
     | Throws _ => false
     end.

(** The task queue accepts the first poll task of the job. *)
Definition first_poll_accepted (env : Env) (jobId : string) : bool :=
  match queue_enqueue env "onJobPoll" (extension_id env) (job_path jobId)
          (ceil_div_1000 (POLL_INTERVAL_MS env)) 60 with
  | Returns _ => true
  | Throws _ => false
  end.

(** A poll tick that fails followed by one that is counted:
    [recordPollError(jobPath, a)] and then
    [incrementPollAttempt(jobPath, a + 1)]. *)
Definition error_then_increment (env : Env) (jobPath : string) (a : Z)
  : M unit :=
  recordPollError env jobPath a ;;
  incrementPollAttempt env jobPath (a + 1).

(** ** Sample environments with failing collaborators *)

Module FailingSamples.

Definition prompt_issue : ZodIssue :=
  mkZodIssue ["instances"; "0"; "prompt"] "Required".

Definition duration_issue : ZodIssue :=
  mkZodIssue ["parameters"; "durationSeconds"] "Expected number".

Definition zod_error : Thrown :=
  ThrownZodError [prompt_issue; duration_issue] "[...]" None.

(** The adapters reject every request at validation. *)
Definition rejecting_env : Env :=
  mkEnv 5400000 1000 None Samples.registry
        (fun _ _ _ => Throws zod_error) Samples.sample_sign
        (fun _ _ _ _ _ => Returns tt) Samples.sample_analyzer
        (fun n => 1700000000000 + Z.of_nat n) Samples.sample_rejection.

(** The adapters throw a value that is not an object. *)
Definition primitive_env : Env :=
  mkEnv 5400000 1000 None Samples.registry
        (fun _ _ _ => Throws ThrownPrimitive) Samples.sample_sign
        (fun _ _ _ _ _ => Returns tt) Samples.sample_analyzer
        (fun n => 1700000000000 + Z.of_nat n) Samples.sample_rejection.

(** The storage signer fails. *)
Definition unsigned_env : Env :=
  mkEnv 5400000 1000 None Samples.registry Samples.sample_start
        (fun _ => Throws (new_Error "signBlob denied"))
        (fun _ _ _ _ _ => Returns tt) Samples.sample_analyzer
        (fun n => 1700000000000 + Z.of_nat n) Samples.sample_rejection.

(** The task queue fails. *)
Definition queueless_env : Env :=
  mkEnv 5400000 1000 (Some "firegen-staging") Samples.registry
        Samples.sample_start Samples.sample_sign
        (fun _ _ _ _ _ => Throws (new_Error "queue not found"))
        Samples.sample_analyzer
        (fun n => 1700000000000 + Z.of_nat n) Samples.sample_rejection.

(** The analyzer picks a model that the registry does not know. *)
Definition stray_analyzer_env : Env :=
  mkEnv 5400000 1000 None Samples.registry Samples.sample_start
        Samples.sample_sign (fun _ _ _ _ _ => Returns tt)
        (fun _ _ => Returns (mkAnalyzed "imagen-9" Samples.video_request
                               ["image requested"]))
        (fun n => 1700000000000 + Z.of_nat n) Samples.sample_rejection.

(** The analyzer's client rejects with a plain object, not an [Error]. *)
Definition quota_object : Thrown := ThrownObject (Some "quota exceeded").

Definition object_throwing_env : Env :=
  mkEnv 5400000 1000 None Samples.registry Samples.sample_start
        Samples.sample_sign (fun _ _ _ _ _ => Returns tt)
        (fun _ _ => Throws quota_object)
        (fun n => 1700000000000 + Z.of_nat n) Samples.sample_rejection.

End FailingSamples.

(** * Properties *)

Local Ltac run_monad :=
  cbv beta iota zeta delta
    [try_catch bind ret throw emit date_now db_update db_set lift_outcome
     undefined_key];
  cbn [fst snd store ticks trace negb].

Local Ltac tidy_trace :=
  repeat rewrite <- app_assoc; cbn [app].

(** ** The runs of [startJob], branch by branch *)

Section StartJobRuns.

Variable env : Env.
Variable jobId : string.
Variable job : JobNode.
Variable st : State.

Lemma startJob_unknown_model :
  isValidModelId env (model job) = false ->
  startJob env jobId job st =
  (Ok tt,
   mkState
     (apply_update
        (apply_update (store st) (starting_payload (clock env (ticks st))))
        (failed_payload (new_Error ("Unknown model ID: " ++ model job))
           (clock env (S (ticks st)))))
     (S (S (ticks st)))
     (trace st ++
      [ EvUpdate (job_path jobId) (starting_payload (clock env (ticks st)));
        EvUpdate (job_path jobId)
          (failed_payload (new_Error ("Unknown model ID: " ++ model job))
             (clock env (S (ticks st)))) ])).
Proof.
  intros Hbad. unfold startJob. run_monad. rewrite Hbad. run_monad.
  tidy_trace. reflexivity.
Qed.

Lemma startJob_adapter_throws (e : Thrown) :
  isValidModelId env (model job) = true ->
  adapter_start env (model job) (request job) jobId = Throws e ->
  startJob env jobId job st =
  (Ok tt,
   mkState
     (apply_update
        (apply_update (store st) (starting_payload (clock env (ticks st))))
        (failed_payload e (clock env (S (ticks st)))))
     (S (S (ticks st)))
     (trace st ++
      [ EvUpdate (job_path jobId) (starting_payload (clock env (ticks st)));
        EvAdapterStart (model job) (request job) jobId;
        EvUpdate (job_path jobId)
          (failed_payload e (clock env (S (ticks st)))) ])).
Proof.
  intros Hok Hthrow. unfold startJob. run_monad. rewrite Hok. run_monad.
  rewrite Hthrow. run_monad. tidy_trace. reflexivity.
Qed.

Lemma startJob_async (res : StartResult) (op : string) :
  isValidModelId env (model job) = true ->
  adapter_start env (model job) (request job) jobId = Returns res ->
  operationName res = Some op ->
  op <> "" ->
  let now := clock env (S (ticks st)) in
  let running_node :=
    apply_update
      (apply_update (store st) (starting_payload (clock env (ticks st))))
      (running_payload env op now) in
  let events :=
    [ EvUpdate (job_path jobId) (starting_payload (clock env (ticks st)));
      EvAdapterStart (model job) (request job) jobId;
      EvUpdate (job_path jobId) (running_payload env op now);
      first_poll_event env jobId ] in
  startJob env jobId job st =
  match queue_enqueue env "onJobPoll" (extension_id env) (job_path jobId)
          (ceil_div_1000 (POLL_INTERVAL_MS env)) 60 with
  | Returns _ =>
      (Ok tt, mkState running_node (S (S (ticks st))) (trace st ++ events))
  | Throws e =>
      (Ok tt,
       mkState
         (apply_update running_node
            (failed_payload e (clock env (S (S (ticks st))))))
         (S (S (S (ticks st))))
         (trace st ++ events ++
          [ EvUpdate (job_path jobId)
              (failed_payload e (clock env (S (S (ticks st))))) ]))
  end.
Proof.
  intros Hok Hret Hop Hne. unfold startJob. run_monad. rewrite Hok. run_monad.
  rewrite Hret. run_monad. rewrite Hop. cbn [truthy_opt_string or_empty].
  assert (Htr : truthy_string op = true).
  { unfold truthy_string. destruct (String.eqb_spec op ""); [contradiction | reflexivity]. }
  rewrite Htr. unfold enqueuePollTask, enqueuePollTask_with. run_monad.
  fold (extension_id env).
  destruct (queue_enqueue env "onJobPoll" (extension_id env) (job_path jobId)
              (ceil_div_1000 (POLL_INTERVAL_MS env)) 60) as [[] | e];
    run_monad; tidy_trace; reflexivity.
Qed.

Lemma startJob_no_result (res : StartResult) :
  isValidModelId env (model job) = true ->
  adapter_start env (model job) (request job) jobId = Returns res ->
  truthy_opt_string (operationName res) = false ->
  output res = None ->
  let err := new_Error "Model adapter returned invalid result" in
  startJob env jobId job st =
  (Ok tt,
   mkState
     (apply_update
        (apply_update (store st) (starting_payload (clock env (ticks st))))
        (failed_payload err (clock env (S (ticks st)))))
     (S (S (ticks st)))
     (trace st ++
      [ EvUpdate (job_path jobId) (starting_payload (clock env (ticks st)));
        EvAdapterStart (model job) (request job) jobId;
        EvUpdate (job_path jobId)
          (failed_payload err (clock env (S (ticks st)))) ])).
Proof.
  intros Hok Hret Hop Hout. unfold startJob. run_monad. rewrite Hok. run_monad.
  rewrite Hret. run_monad. rewrite Hop, Hout. run_monad. tidy_trace. reflexivity.
Qed.

Lemma startJob_sync_text (res : StartResult) (out : ModelOutput) :
  isValidModelId env (model job) = true ->
  adapter_start env (model job) (request job) jobId = Returns res ->
  truthy_opt_string (operationName res) = false ->
  output res = Some out ->
  has_media_reference out = false ->
  let rejection := store_error env (job_path jobId) "files" in
  startJob env jobId job st =
  (Ok tt,
   mkState
     (apply_update
        (apply_update (store st) (starting_payload (clock env (ticks st))))
        (failed_payload rejection (clock env (S (S (ticks st))))))
     (S (S (S (ticks st))))
     (trace st ++
      [ EvUpdate (job_path jobId) (starting_payload (clock env (ticks st)));
        EvAdapterStart (model job) (request job) jobId;
        EvUpdate (job_path jobId)
          (succeeded_payload res None (clock env (S (ticks st))));
        EvUpdate (job_path jobId)
          (failed_payload rejection (clock env (S (S (ticks st))))) ])).
Proof.
  intros Hok Hret Hop Hout Hmedia rejection. unfold startJob. run_monad.
  rewrite Hok. run_monad. rewrite Hret. run_monad. rewrite Hop, Hout. run_monad.
  unfold build_files. unfold has_media_reference, truthy_opt_string in Hmedia.
  destruct (uri out) as [u |]; [rewrite Hmedia |]; run_monad;
    cbn [List.length Nat.ltb Nat.leb]; run_monad; tidy_trace; reflexivity.
Qed.

Lemma startJob_sync_media (res : StartResult) (out : ModelOutput)
  (u : string) :
  isValidModelId env (model job) = true ->
  adapter_start env (model job) (request job) jobId = Returns res ->
  truthy_opt_string (operationName res) = false ->
  output res = Some out ->
  uri out = Some u ->
  u <> "" ->
  startJob env jobId job st =
  match generateSignedUrl env u with
  | Returns signedUrl =>
      (Ok tt,
       mkState
         (apply_update
            (apply_update (store st)
               (starting_payload (clock env (ticks st))))
            (succeeded_payload res (Some [file0_entry out u signedUrl])
               (clock env (S (ticks st)))))
         (S (S (ticks st)))
         (trace st ++
          [ EvUpdate (job_path jobId)
              (starting_payload (clock env (ticks st)));
            EvAdapterStart (model job) (request job) jobId;
            EvSignUrl u;
            EvUpdate (job_path jobId)
              (succeeded_payload res (Some [file0_entry out u signedUrl])
                 (clock env (S (ticks st)))) ]))
  | Throws e =>
      (Ok tt,
       mkState
         (apply_update
            (apply_update (store st)
               (starting_payload (clock env (ticks st))))
            (failed_payload e (clock env (S (ticks st)))))
         (S (S (ticks st)))
         (trace st ++
          [ EvUpdate (job_path jobId)
              (starting_payload (clock env (ticks st)));
            EvAdapterStart (model job) (request job) jobId;
            EvSignUrl u;
            EvUpdate (job_path jobId)
              (failed_payload e (clock env (S (ticks st)))) ]))
  end.
Proof.
  intros Hok Hret Hop Hout Huri Hne. unfold startJob. run_monad.
  rewrite Hok. run_monad. rewrite Hret. run_monad. rewrite Hop, Hout. run_monad.
  unfold build_files. rewrite Huri.
  assert (Htr : truthy_string u = true).
  { unfold truthy_string. destruct (String.eqb_spec u ""); [contradiction | reflexivity]. }
  rewrite Htr. run_monad.
  destruct (generateSignedUrl env u) as [signedUrl | e]; run_monad.
  - cbn [List.length Nat.ltb Nat.leb]. run_monad. unfold file0_entry.
    rewrite Huri. tidy_trace. reflexivity.
  - tidy_trace. reflexivity.
Qed.

End StartJobRuns.

(** Case analysis over the branches of [startJob]: after it, the goal
    mentions the result of each branch in closed form. *)
Local Ltac falsy_branch env jobId job st res Hvalid Hstart Hfalsy :=
  let out := fresh "out" in
  let Hout := fresh "Hout" in
  let u := fresh "u" in
  let Huri := fresh "Huri" in
  let Hne := fresh "Hne" in
  let Hempty := fresh "Hempty" in
  destruct (output res) as [out |] eqn:Hout;
  [ destruct (uri out) as [u |] eqn:Huri;
    [ destruct (String.eqb_spec u "") as [Hempty | Hne];
      [ rewrite (startJob_sync_text env jobId job st res out
                   Hvalid Hstart Hfalsy Hout);
        [ | unfold has_media_reference; rewrite Huri, Hempty; reflexivity ]
      | rewrite (startJob_sync_media env jobId job st res out u
                   Hvalid Hstart Hfalsy Hout Huri Hne);
        destruct (generateSignedUrl env u) ]
    | rewrite (startJob_sync_text env jobId job st res out
                 Hvalid Hstart Hfalsy Hout);
      [ | unfold has_media_reference; rewrite Huri; reflexivity ] ]
  | rewrite (startJob_no_result env jobId job st res
               Hvalid Hstart Hfalsy Hout) ].

Local Ltac valid_branches env jobId job st Hvalid :=
  let res := fresh "res" in
  let e := fresh "e" in
  let Hstart := fresh "Hstart" in
  let op := fresh "op" in
  let Hop := fresh "Hop" in
  let Hne := fresh "Hne" in
  let Hempty := fresh "Hempty" in
  let Hfalsy := fresh "Hfalsy" in
  destruct (adapter_start env (model job) (request job) jobId)
    as [res | e] eqn:Hstart;
  [ destruct (operationName res) as [op |] eqn:Hop;
    [ destruct (String.eqb_spec op "") as [Hempty | Hne];
      [ assert (Hfalsy : truthy_opt_string (operationName res) = false)
          by (rewrite Hop, Hempty; reflexivity);
        falsy_branch env jobId job st res Hvalid Hstart Hfalsy
      | rewrite (startJob_async env jobId job st res op
                   Hvalid Hstart Hop Hne);
        destruct (queue_enqueue env "onJobPoll" (extension_id env)
                    (job_path jobId)
                    (ceil_div_1000 (POLL_INTERVAL_MS env)) 60) ]
    | assert (Hfalsy : truthy_opt_string (operationName res) = false)
        by (rewrite Hop; reflexivity);
      falsy_branch env jobId job st res Hvalid Hstart Hfalsy ]
  | rewrite (startJob_adapter_throws env jobId job st e Hvalid Hstart) ].

Local Ltac all_branches env jobId job st :=
  let Hvalid := fresh "Hvalid" in
  destruct (isValidModelId env (model job)) eqn:Hvalid;
  [ valid_branches env jobId job st Hvalid
  | rewrite (startJob_unknown_model env jobId job st Hvalid) ].

Lemma count_events_app (p : Event -> bool) (a b : list Event) :
  count_events p (a ++ b) = (count_events p a + count_events p b)%nat.
Proof.
  unfold count_events. rewrite filter_app, length_app. reflexivity.
Qed.

(** [startJob] always returns: whatever is thrown inside is caught and
    turned into a write. *)
Lemma startJob_returns (env : Env) (jobId : string) (job : JobNode)
  (st : State) :
  outcome_of (startJob env jobId job st) = Ok tt.
Proof.
  all_branches env jobId job st; reflexivity.
Qed.

(** With a registered model, one run makes one backend submission. *)
Lemma startJob_submits_once (env : Env) (jobId : string) (job : JobNode)
  (st : State) :
  isValidModelId env (model job) = true ->
  backend_submissions (trace (final_state (startJob env jobId job st)))
  = S (backend_submissions (trace st)).
Proof.
  intros Hvalid. unfold backend_submissions.
  valid_branches env jobId job st Hvalid;
    cbv beta iota zeta delta [final_state snd trace];
    rewrite count_events_app; cbn; lia.
Qed.

(** ** What the payloads leave in the stored node *)

Lemma failed_payload_stored (j : JobNode) (err : Thrown) (t : Z) :
  status (apply_update j (failed_payload err t)) = failed
  /\ error (apply_update j (failed_payload err t)) = Some (start_failure err).
Proof. split; reflexivity. Qed.

Lemma running_payload_stored (env : Env) (j : JobNode) (op : string)
  (now : Z) :
  let written := apply_update j (running_payload env op now) in
  status written = running
  /\ meta_field ttl written = Some (now + JOB_TTL_MS env)
  /\ meta_field attempt written = Some 0
  /\ meta_field nextPoll written = Some (now + POLL_INTERVAL_MS env)
  /\ meta_field operation written = Some op
  /\ meta_field updatedAt written = Some now
  /\ error written = error j.
Proof. repeat split; reflexivity. Qed.

(** ** Idempotence of the job-created handler *)

(** C1, as stated, fails: a video job that its first delivery has already
    brought to [running] is submitted to the backend a second time when the
    handler runs again on it. *)
Lemma C1_second_delivery_resubmits :
  status (store Samples.after_first_delivery) = running
  /\ backend_submissions (trace Samples.after_first_delivery) = 1%nat
  /\ backend_submissions
       (trace (final_state
                 (startJob Samples.sample_env "job-1"
                    (store Samples.after_first_delivery)
                    Samples.after_first_delivery))) = 2%nat.
Proof. vm_compute. repeat split. Qed.

(** C1 (amended): [startJob] never reads the status of the job.  For every
    job with a registered model, whatever its status and whatever the stored
    node holds, each run of the handler calls the adapter's [start] exactly
    once, so a second run adds a second backend submission. *)
Theorem C1_startJob_not_gated_on_status :
  forall (env : Env) (jobId : string) (job : JobNode) (st : State),
    isValidModelId env (model job) = true ->
    let first := final_state (startJob env jobId job st) in
    let second := final_state (startJob env jobId job first) in
    backend_submissions (trace first) = S (backend_submissions (trace st))
    /\ backend_submissions (trace second)
       = S (S (backend_submissions (trace st))).
Proof.
  intros env jobId job st Hvalid first second. subst first second.
  split.
  - apply startJob_submits_once; assumption.
  - rewrite startJob_submits_once by assumption.
    rewrite startJob_submits_once by assumption. reflexivity.
Qed.

Lemma C1_startJob_not_gated_on_status_witness :
  isValidModelId Samples.sample_env
    (model (Samples.job_for "veo-3.1-fast-generate-preview" running)) = true
  /\ backend_submissions
       (trace (final_state
                 (startJob Samples.sample_env "job-1"
                    (Samples.job_for "veo-3.1-fast-generate-preview" running)
                    Samples.after_first_delivery))) = 2%nat.
Proof.
  split; [reflexivity |].
  exact (proj1 (C1_startJob_not_gated_on_status Samples.sample_env "job-1"
                  (Samples.job_for "veo-3.1-fast-generate-preview" running)
                  Samples.after_first_delivery eq_refl)).
Defined.

(** ** The adapter result contract *)

(** C2, as stated, fails: a result that carries both an operation name and
    an output is not reported as a violation; the job goes to [running]. *)
Lemma C2_both_present_is_accepted :
  adapter_start Samples.sample_env (model Samples.both_job)
    (request Samples.both_job) "job-3"
  = Returns (mkStartResult (Some "operations/op-2")
               (Some Samples.image_output) None)
  /\ status (store (final_state
                      (startJob Samples.sample_env "job-3" Samples.both_job
                         (init_state Samples.both_job)))) = running
  /\ error (store (final_state
                     (startJob Samples.sample_env "job-3" Samples.both_job
                        (init_state Samples.both_job)))) = None.
Proof. vm_compute. repeat split. Qed.

(** C2 (amended): when the adapter result carries neither an operation name
    nor an output, [startJob] writes the job as [failed] with code
    [START_FAILED].  When it carries both, the operation name takes
    precedence: the output is ignored and the job follows the asynchronous
    path, with the [running] write and the first poll. *)
Theorem C2_adapter_result_contract :
  forall (env : Env) (jobId : string) (job : JobNode) (st : State)
         (res : StartResult),
    isValidModelId env (model job) = true ->
    adapter_start env (model job) (request job) jobId = Returns res ->
    let r := startJob env jobId job st in
    (truthy_opt_string (operationName res) = false ->
     output res = None ->
     outcome_of r = Ok tt
     /\ status (store (final_state r)) = failed
     /\ error (store (final_state r))
        = Some (mkJobError "START_FAILED"
                  "Model adapter returned invalid result" None))
    /\
    (forall (op : string) (out : ModelOutput),
       operationName res = Some op ->
       op <> "" ->
       output res = Some out ->
       let now := clock env (S (ticks st)) in
       (exists rest,
          trace (final_state r)
          = (trace st ++
             [ EvUpdate (job_path jobId)
                 (starting_payload (clock env (ticks st)));
               EvAdapterStart (model job) (request job) jobId;
               EvUpdate (job_path jobId) (running_payload env op now);
               first_poll_event env jobId ] ++ rest)%list)
       /\ (queue_enqueue env "onJobPoll" (extension_id env) (job_path jobId)
             (ceil_div_1000 (POLL_INTERVAL_MS env)) 60 = Returns tt ->
           status (store (final_state r)) = running
           /\ error (store (final_state r)) = error (store st))).
Proof.
  intros env jobId job st res Hvalid Hstart r. subst r. split.
  - intros Hfalsy Hout.
    rewrite (startJob_no_result env jobId job st res Hvalid Hstart Hfalsy Hout).
    repeat split.
  - intros op out Hop Hne Hout now.
    rewrite (startJob_async env jobId job st res op Hvalid Hstart Hop Hne).
    cbv zeta. split.
    + destruct (queue_enqueue env "onJobPoll" (extension_id env)
                  (job_path jobId) (ceil_div_1000 (POLL_INTERVAL_MS env)) 60)
        as [[] | e].
      * exists []. rewrite app_nil_r. reflexivity.
      * eexists. reflexivity.
    + intros Hq. rewrite Hq. split; reflexivity.
Qed.

Lemma C2_adapter_result_contract_witness :
  isValidModelId Samples.sample_env (model Samples.neither_job) = true
  /\ adapter_start Samples.sample_env (model Samples.neither_job)
       (request Samples.neither_job) "job-4"
     = Returns (mkStartResult None None None)
  /\ status (store (final_state
                      (startJob Samples.sample_env "job-4"
                         Samples.neither_job
                         (init_state Samples.neither_job)))) = failed.
Proof.
  split; [reflexivity | split; [reflexivity |]].
  exact (proj1 (proj2 (proj1
           (C2_adapter_result_contract Samples.sample_env "job-4"
              Samples.neither_job (init_state Samples.neither_job)
              (mkStartResult None None None) eq_refl eq_refl)
           eq_refl eq_refl))).
Defined.

(** ** The asynchronous path *)

(** C4: when the adapter's [start] returns an operation handle, [startJob]
    takes one reading [now] of the clock and writes, in a single update,
    status [running], [ttl = now + JOB_TTL_MS], [attempt = 0] and
    [nextPoll = now + POLL_INTERVAL_MS]; right after that write it enqueues
    the first poll task for the job. *)
Theorem C4_async_start_writes_running_and_enqueues :
  forall (env : Env) (jobId : string) (job : JobNode) (st : State)
         (res : StartResult) (op : string),
    isValidModelId env (model job) = true ->
    adapter_start env (model job) (request job) jobId = Returns res ->
    operationName res = Some op ->
    op <> "" ->
    let now := clock env (S (ticks st)) in
    let r := startJob env jobId job st in
    let written :=
      apply_update
        (apply_update (store st) (starting_payload (clock env (ticks st))))
        (running_payload env op now) in
    (exists rest,
       trace (final_state r)
       = (trace st ++
          [ EvUpdate (job_path jobId)
              (starting_payload (clock env (ticks st)));
            EvAdapterStart (model job) (request job) jobId;
            EvUpdate (job_path jobId)
              [ W_status running;
                W_meta_updatedAt now;
                W_meta_operation op;
                W_meta_ttl (now + JOB_TTL_MS env);
                W_meta_attempt 0;
                W_meta_nextPoll (now + POLL_INTERVAL_MS env) ];
            EvEnqueue "onJobPoll" (extension_id env) (job_path jobId)
              (ceil_div_1000 (POLL_INTERVAL_MS env)) 60 ] ++ rest)%list)
    /\ status written = running
    /\ meta_field ttl written = Some (now + JOB_TTL_MS env)
    /\ meta_field attempt written = Some 0
    /\ meta_field nextPoll written = Some (now + POLL_INTERVAL_MS env)
    /\ (queue_enqueue env "onJobPoll" (extension_id env) (job_path jobId)
          (ceil_div_1000 (POLL_INTERVAL_MS env)) 60 = Returns tt ->
        outcome_of r = Ok tt /\ store (final_state r) = written).
Proof.
  intros env jobId job st res op Hvalid Hstart Hop Hne now r written.
  subst r.
  rewrite (startJob_async env jobId job st res op Hvalid Hstart Hop Hne).
  cbv zeta. fold now. split; [| repeat split].
  - destruct (queue_enqueue env "onJobPoll" (extension_id env)
                (job_path jobId) (ceil_div_1000 (POLL_INTERVAL_MS env)) 60)
      as [[] | e].
    + exists []. rewrite app_nil_r. reflexivity.
    + eexists. reflexivity.
  - rewrite H. reflexivity.
  - rewrite H. reflexivity.
Qed.

Lemma C4_async_start_witness :
  status (store (final_state
                   (startJob Samples.sample_env "job-1" Samples.video_job
                      (init_state Samples.video_job)))) = running
  /\ meta_field ttl
       (store (final_state
                 (startJob Samples.sample_env "job-1" Samples.video_job
                    (init_state Samples.video_job))))
     = Some (1700000000001 + 5400000).
Proof.
  pose proof (C4_async_start_writes_running_and_enqueues
                Samples.sample_env "job-1" Samples.video_job
                (init_state Samples.video_job)
                (mkStartResult (Some "operations/op-1") None None)
                "operations/op-1" eq_refl eq_refl eq_refl
                ltac:(discriminate)) as H.
  cbv zeta in H.
  destruct H as (_ & Hstatus & Httl & _ & _ & Hfinal).
  destruct (Hfinal eq_refl) as [_ Hstore].
  rewrite Hstore. split; [exact Hstatus | exact Httl].
Defined.

(** ** Unknown model identifiers *)

(** C5: a job whose model identifier is outside the registry ends [failed]
    with [error.code = START_FAILED], and the run contains no call of an
    adapter's [start]. *)
Theorem C5_unknown_model_fails_without_backend_call :
  forall (env : Env) (jobId : string) (job : JobNode) (st : State),
    isValidModelId env (model job) = false ->
    let r := startJob env jobId job st in
    outcome_of r = Ok tt
    /\ status (store (final_state r)) = failed
    /\ error (store (final_state r))
       = Some (mkJobError "START_FAILED"
                 ("Unknown model ID: " ++ model job) None)
    /\ trace (final_state r)
       = (trace st ++
          [ EvUpdate (job_path jobId)
              (starting_payload (clock env (ticks st)));
            EvUpdate (job_path jobId)
              (failed_payload
                 (new_Error ("Unknown model ID: " ++ model job))
                 (clock env (S (ticks st)))) ])%list
    /\ backend_submissions (trace (final_state r))
       = backend_submissions (trace st).
Proof.
  intros env jobId job st Hbad r. subst r.
  rewrite (startJob_unknown_model env jobId job st Hbad).
  repeat split.
  cbv beta iota delta [final_state snd trace]. unfold backend_submissions.
  rewrite count_events_app. cbn. lia.
Qed.

Lemma C5_unknown_model_witness :
  isValidModelId Samples.sample_env (model Samples.unknown_job) = false
  /\ status (store (final_state
                      (startJob Samples.sample_env "job-5"
                         Samples.unknown_job
                         (init_state Samples.unknown_job)))) = failed
  /\ backend_submissions
       (trace (final_state
                 (startJob Samples.sample_env "job-5" Samples.unknown_job
                    (init_state Samples.unknown_job)))) = 0%nat.
Proof.
  pose proof (C5_unknown_model_fails_without_backend_call
                Samples.sample_env "job-5" Samples.unknown_job
                (init_state Samples.unknown_job) eq_refl) as H.
  cbv zeta in H. destruct H as (_ & Hstatus & _ & _ & Hcount).
  split; [reflexivity | split; [exact Hstatus | exact Hcount]].
Defined.

(** ** Failure of the analysis *)

Lemma analyze_throws_run (env : Env) (jobId prompt_ uid_ : string)
  (st : State) (err : Thrown) :
  assistedRequest env prompt_ jobId = Throws err ->
  let node := analysis_failed_job uid_ prompt_ err (clock env (ticks st)) in
  let events :=
    [ EvAnalyze prompt_ jobId; EvSet (job_path jobId) node ] in
  analyzeAndTransformJob env jobId prompt_ uid_ st =
  match undefined_in_failure err with
  | None =>
      (Ok tt, mkState node (S (ticks st)) (trace st ++ events))
  | Some key =>
      (Throw (store_error env (job_path jobId) key),
       mkState (store st) (S (ticks st)) (trace st ++ events))
  end.
Proof.
  intros Hthrow node events. unfold analyzeAndTransformJob. run_monad.
  rewrite Hthrow. run_monad.
  fold (analysis_failed_job uid_ prompt_ err (clock env (ticks st))).
  destruct (undefined_in_failure err); tidy_trace; reflexivity.
Qed.

(** C6: when the analysis of a free-text job throws, the handler calls the
    analysis once, makes no backend submission, and hands to [jobRef.set]
    one node: [failed], [error.code = AI_ANALYSIS_FAILED], [assisted.prompt]
    the original prompt.  When the thrown value is an [Error] with a stack,
    the store takes the node and the handler returns.  When it is not an
    [Error], the node holds [error.details: undefined]; the store rejects
    it, nothing is written and the handler itself throws. *)
Theorem C6_analysis_failure_write :
  forall (env : Env) (jobId prompt_ uid_ : string) (st : State)
         (err : Thrown),
    assistedRequest env prompt_ jobId = Throws err ->
    let r := analyzeAndTransformJob env jobId prompt_ uid_ st in
    let node := analysis_failed_job uid_ prompt_ err (clock env (ticks st)) in
    (trace (final_state r)
     = (trace st ++ [ EvAnalyze prompt_ jobId;
                      EvSet (job_path jobId) node ])%list
     /\ status node = failed
     /\ option_map code (error node) = Some "AI_ANALYSIS_FAILED"
     /\ option_map prompt (assisted node) = Some prompt_
     /\ count_events is_analyze (trace (final_state r))
        = S (count_events is_analyze (trace st))
     /\ backend_submissions (trace (final_state r))
        = backend_submissions (trace st))
    /\ (forall (d : ErrorDetails) (stk : string),
          error_details err = Some d ->
          err_stack d = Some stk ->
          outcome_of r = Ok tt /\ store (final_state r) = node)
    /\ (error_details err = None ->
        outcome_of r = Throw (store_error env (job_path jobId) "error/details")
        /\ store (final_state r) = store st).
Proof.
  intros env jobId prompt_ uid_ st err Hthrow r node. subst node r.
  rewrite (analyze_throws_run env jobId prompt_ uid_ st err Hthrow).
  cbv zeta. unfold undefined_in_failure, backend_submissions.
  split; [| split].
  - destruct (error_details err) as [[n [stk |]] |]; cbn [err_stack];
      unfold final_state; cbn [snd trace];
      rewrite !count_events_app; repeat split; cbn; lia.
  - intros d stk Hd Hstk. rewrite Hd, Hstk. split; reflexivity.
  - intros Hd. rewrite Hd. split; reflexivity.
Qed.

Lemma C6_analysis_failure_witness :
  assistedRequest FailingSamples.object_throwing_env "sing me a song" "job-6"
  = Throws FailingSamples.quota_object
  /\ error_details FailingSamples.quota_object = None
  /\ store (final_state
              (analyzeAndTransformJob FailingSamples.object_throwing_env
                 "job-6" "sing me a song" "user-123"
                 (init_state Samples.text_job)))
     = Samples.text_job.
Proof.
  split; [reflexivity | split; [reflexivity |]].
  exact (proj2 (proj2 (proj2
           (C6_analysis_failure_write FailingSamples.object_throwing_env
              "job-6" "sing me a song" "user-123"
              (init_state Samples.text_job) FailingSamples.quota_object
              eq_refl)) eq_refl)).
Defined.

(** ** Synchronous completion *)

Lemma success_files_app (a b : list Event) :
  success_files (a ++ b) = (success_files a ++ success_files b)%list.
Proof.
  induction a as [| e a IH]; [reflexivity |].
  destruct e as [p u | p j | m q i | g | q x p d dd | t i]; cbn [app success_files];
    try exact IH.
  destruct (existsb (sets_status succeeded) u); [| exact IH].
  destruct (payload_files u); cbn [app]; rewrite IH; reflexivity.
Qed.

Lemma has_media_reference_spec (out : ModelOutput) :
  has_media_reference out = true <-> exists u, uri out = Some u /\ u <> "".
Proof.
  unfold has_media_reference, truthy_opt_string, truthy_string.
  destruct (uri out) as [u |].
  - destruct (String.eqb_spec u ""); cbn; split.
    + discriminate.
    + intros (u' & Hu & Hne). inversion Hu; subst. contradiction.
    + intros _. exists u. split; [reflexivity | assumption].
    + reflexivity.
  - split; [discriminate | intros (u' & Hu & _); discriminate].
Qed.

(** C7: on a synchronous answer with a storage URI, [startJob] signs the URI
    and then writes [succeeded] with a [files] array of one entry, named
    [file0] plus what [getFileExtension] returns, pointing at the URI and
    carrying [signedUrl || ""].  On a text-only answer it hands
    [files: undefined] to the update that sets [succeeded]; the store
    rejects that update, so no success is written and the job ends [failed]
    with code [START_FAILED]. *)
Theorem C7_sync_completion_files :
  forall (env : Env) (jobId : string) (job : JobNode) (st : State)
         (res : StartResult) (out : ModelOutput),
    isValidModelId env (model job) = true ->
    adapter_start env (model job) (request job) jobId = Returns res ->
    truthy_opt_string (operationName res) = false ->
    output res = Some out ->
    let r := startJob env jobId job st in
    let t1 := clock env (S (ticks st)) in
    let t2 := clock env (S (S (ticks st))) in
    (has_media_reference out = false ->
     trace (final_state r)
     = (trace st ++
        [ EvUpdate (job_path jobId) (starting_payload (clock env (ticks st)));
          EvAdapterStart (model job) (request job) jobId;
          EvUpdate (job_path jobId)
            [ W_status succeeded;
              W_response (raw_or_empty (rawResponse res));
              W_files None;
              W_meta_updatedAt t1 ];
          EvUpdate (job_path jobId)
            [ W_status failed;
              W_error (mkJobError "START_FAILED"
                         (store_rejection env (job_path jobId) "files")
                         None);
              W_meta_updatedAt t2 ] ])%list
     /\ status (store (final_state r)) = failed
     /\ error (store (final_state r))
        = Some (mkJobError "START_FAILED"
                  (store_rejection env (job_path jobId) "files") None)
     /\ response (store (final_state r)) = response (store st)
     /\ files (store (final_state r)) = files (store st))
    /\
    (forall (u : string) (signedUrl : option string),
       uri out = Some u ->
       u <> "" ->
       generateSignedUrl env u = Returns signedUrl ->
       let entry :=
         mkFileInfo
           ("file0" ++ ext_text (getFileExtension (Some u) (mimeType out)))
           u (or_empty signedUrl)
           (if truthy_opt_string (mimeType out) then mimeType out else None)
           (size out) in
       trace (final_state r)
       = (trace st ++
          [ EvUpdate (job_path jobId)
              (starting_payload (clock env (ticks st)));
            EvAdapterStart (model job) (request job) jobId;
            EvSignUrl u;
            EvUpdate (job_path jobId)
              [ W_status succeeded;
                W_response (raw_or_empty (rawResponse res));
                W_files (Some [entry]);
                W_meta_updatedAt t1 ] ])%list
       /\ files (store (final_state r)) = Some [entry]
       /\ status (store (final_state r)) = succeeded).
Proof.
  intros env jobId job st res out Hvalid Hstart Hfalsy Hout r t1 t2.
  subst r t1 t2. split.
  - intros Htext.
    rewrite (startJob_sync_text env jobId job st res out
               Hvalid Hstart Hfalsy Hout Htext).
    cbv beta iota zeta delta [final_state snd trace store].
    repeat split.
  - intros u signedUrl Huri Hne Hsign entry. subst entry.
    rewrite (startJob_sync_media env jobId job st res out u
               Hvalid Hstart Hfalsy Hout Huri Hne), Hsign.
    cbv beta iota delta [final_state snd trace store].
    unfold file0_entry. rewrite Huri.
    repeat split.
Qed.

Lemma C7_sync_completion_witness :
  has_media_reference Samples.text_output = false
  /\ status (store (final_state
                      (startJob Samples.sample_env "job-10" Samples.text_job
                         (init_state Samples.text_job)))) = failed
  /\ response (store (final_state
                        (startJob Samples.sample_env "job-10"
                           Samples.text_job
                           (init_state Samples.text_job)))) = None.
Proof.
  pose proof (C7_sync_completion_files
                Samples.sample_env "job-10" Samples.text_job
                (init_state Samples.text_job)
                (mkStartResult None (Some Samples.text_output) None)
                Samples.text_output eq_refl eq_refl eq_refl eq_refl) as H.
  cbv zeta in H. destruct H as (Htext & _).
  destruct (Htext eq_refl) as (_ & Hstatus & _ & Hresponse & _).
  split; [reflexivity | split; [exact Hstatus | exact Hresponse]].
Defined.

(** ** Where [ttl] and [nextPoll] are written *)

Lemma startJob_trace_extends (env : Env) (jobId : string) (job : JobNode)
  (st : State) :
  exists evs,
    trace (final_state (startJob env jobId job st)) = (trace st ++ evs)%list.
Proof.
  all_branches env jobId job st;
    cbv beta iota delta [final_state snd trace]; eexists; reflexivity.
Qed.

(** Inside [startJob], an update that sets [ttl] or [nextPoll] is the one
    that sets the status to [running]. *)
Lemma startJob_deadlines_only_with_running (env : Env) (jobId : string)
  (job : JobNode) (st : State) (evs : list Event) :
  trace (final_state (startJob env jobId job st)) = (trace st ++ evs)%list ->
  forall (p : string) (u : UpdatePayload),
    In (EvUpdate p u) evs ->
    existsb sets_poll_deadline u = true ->
    existsb (sets_status running) u = true.
Proof.
  intros Htrace p u Hin Hsets. revert Htrace.
  all_branches env jobId job st;
    cbv beta iota delta [final_state snd trace];
    intros Htrace; apply app_inv_head in Htrace; subst evs;
    cbn [In app] in Hin;
    repeat match goal with
           | H : _ \/ _ |- _ => destruct H as [H | H]
           | H : False |- _ => contradiction
           | H : EvUpdate _ _ = EvUpdate _ _ |- _ =>
               inversion H; subst; clear H
           | H : _ = EvUpdate _ _ |- _ => try discriminate H
           end;
    solve [ reflexivity | cbn in Hsets; discriminate Hsets ].
Qed.

Lemma analyze_returns_run (env : Env) (jobId prompt_ uid_ : string)
  (st : State) (a : Analyzed) :
  assistedRequest env prompt_ jobId = Returns a ->
  let node := transformed_job env uid_ prompt_ a (clock env (ticks st)) in
  analyzeAndTransformJob env jobId prompt_ uid_ st =
  startJob env jobId node
    (mkState node (S (ticks st))
       (trace st ++ [ EvAnalyze prompt_ jobId; EvSet (job_path jobId) node ])).
Proof.
  intros Hret node. unfold analyzeAndTransformJob. run_monad.
  rewrite Hret. run_monad. tidy_trace.
  fold (transformed_job env uid_ prompt_ a (clock env (ticks st))).
  fold node.
  pose proof (startJob_returns env jobId node
                (mkState node (S (ticks st))
                   (trace st ++
                    [ EvAnalyze prompt_ jobId; EvSet (job_path jobId) node ])))
    as Hok.
  unfold outcome_of in Hok.
  destruct (startJob env jobId node _) as [[[] | e] st'];
    cbn [fst] in Hok; [reflexivity | discriminate].
Qed.

(** C3, as stated, fails: the record that the analyzer writes for a
    transformed free-text job has status [requested] and carries both
    [ttl] and [nextPoll]. *)
Lemma C3_requested_record_carries_deadlines :
  nth_error
    (trace (final_state
              (analyzeAndTransformJob Samples.sample_env "job-7"
                 "Create a 4 second sunset video with gentle waves"
                 "user-123" (init_state Samples.text_job)))) 1
  = Some (EvSet "firegen-jobs/job-7"
            (transformed_job Samples.sample_env "user-123"
               "Create a 4 second sunset video with gentle waves"
               (mkAnalyzed "veo-3.1-fast-generate-preview"
                  Samples.video_request ["video requested"; "duration 4"])
               1700000000000))
  /\ status (transformed_job Samples.sample_env "user-123"
               "Create a 4 second sunset video with gentle waves"
               (mkAnalyzed "veo-3.1-fast-generate-preview"
                  Samples.video_request ["video requested"; "duration 4"])
               1700000000000) = requested
  /\ meta_field ttl
       (transformed_job Samples.sample_env "user-123"
          "Create a 4 second sunset video with gentle waves"
          (mkAnalyzed "veo-3.1-fast-generate-preview"
             Samples.video_request ["video requested"; "duration 4"])
          1700000000000) = Some 1700005400000
  /\ meta_field nextPoll
       (transformed_job Samples.sample_env "user-123"
          "Create a 4 second sunset video with gentle waves"
          (mkAnalyzed "veo-3.1-fast-generate-preview"
             Samples.video_request ["video requested"; "duration 4"])
          1700000000000) = Some 1700000001000.
Proof. vm_compute. repeat split. Qed.

(** C3 (amended): inside [startJob], an update sets [ttl] or [nextPoll]
    only if it also sets status [running], and the node that the analyzer
    hands to the store when the analysis fails carries neither.  The node
    that the analyzer writes for a transformed job is the exception: it has
    status [requested] and carries [ttl = now + JOB_TTL_MS] and
    [nextPoll = now + POLL_INTERVAL_MS]; the run of [startJob] that follows
    (the rest of the analyzer's run) does not remove them, so the record
    still carries both when that run has ended, in [running], [succeeded]
    or [failed]. *)
Theorem C3_where_poll_deadlines_are_written :
  forall (env : Env) (jobId : string),
    (forall (job : JobNode) (st : State) (evs : list Event),
       trace (final_state (startJob env jobId job st))
       = (trace st ++ evs)%list ->
       forall (p : string) (u : UpdatePayload),
         In (EvUpdate p u) evs ->
         existsb sets_poll_deadline u = true ->
         existsb (sets_status running) u = true)
    /\
    (forall (prompt_ uid_ : string) (st : State) (err : Thrown)
            (evs : list Event),
       assistedRequest env prompt_ jobId = Throws err ->
       trace (final_state (analyzeAndTransformJob env jobId prompt_ uid_ st))
       = (trace st ++ evs)%list ->
       forall (p : string) (node : JobNode),
         In (EvSet p node) evs ->
         status node = failed
         /\ meta_field ttl node = None
         /\ meta_field nextPoll node = None)
    /\
    (forall (prompt_ uid_ : string) (st : State) (a : Analyzed),
       assistedRequest env prompt_ jobId = Returns a ->
       let now := clock env (ticks st) in
       let node := transformed_job env uid_ prompt_ a now in
       let after :=
         store (final_state
                  (analyzeAndTransformJob env jobId prompt_ uid_ st)) in
       (exists rest,
          trace (final_state
                   (analyzeAndTransformJob env jobId prompt_ uid_ st))
          = (trace st ++
             EvAnalyze prompt_ jobId :: EvSet (job_path jobId) node :: rest)%list)
       /\ status node = requested
       /\ meta_field ttl node = Some (now + JOB_TTL_MS env)
       /\ meta_field nextPoll node = Some (now + POLL_INTERVAL_MS env)
       /\ (status after = running \/ status after = succeeded
           \/ status after = failed)
       /\ meta_field ttl after <> None
       /\ meta_field nextPoll after <> None
       /\ analyzeAndTransformJob env jobId prompt_ uid_ st
          = startJob env jobId node
              (mkState node (S (ticks st))
                 (trace st ++
                  [ EvAnalyze prompt_ jobId;
                    EvSet (job_path jobId) node ])%list)).
Proof.
  intros env jobId. split; [| split].
  - intros job st evs. apply startJob_deadlines_only_with_running.
  - intros prompt_ uid_ st err evs Hthrow.
    rewrite (analyze_throws_run env jobId prompt_ uid_ st err Hthrow).
    cbv zeta.
    destruct (undefined_in_failure err);
      cbv beta iota delta [final_state snd trace];
      intros Htrace p node Hin; apply app_inv_head in Htrace; subst evs;
      cbn [In] in Hin;
      destruct Hin as [Hin | [Hin | []]]; try discriminate Hin;
      inversion Hin; subst; repeat split.
  - intros prompt_ uid_ st a Hret now node after. subst after.
    rewrite (analyze_returns_run env jobId prompt_ uid_ st a Hret).
    cbv zeta. fold now. fold node.
    split; [| split; [reflexivity | split; [reflexivity
                                           | split; [reflexivity |]]]].
    + destruct (startJob_trace_extends env jobId node
                  (mkState node (S (ticks st))
                     (trace st ++
                      [ EvAnalyze prompt_ jobId;
                        EvSet (job_path jobId) node ])))
        as [evs Hevs].
      exists evs. rewrite Hevs. cbn [trace]. tidy_trace. reflexivity.
    + subst node.
      all_branches env jobId
        (transformed_job env uid_ prompt_ a now)
        (mkState (transformed_job env uid_ prompt_ a now) (S (ticks st))
           (trace st ++
            [ EvAnalyze prompt_ jobId;
              EvSet (job_path jobId)
                (transformed_job env uid_ prompt_ a now) ])%list);
        cbv beta iota delta [final_state snd store];
        (split; [first [ left; reflexivity
                       | right; left; reflexivity
                       | right; right; reflexivity ] |]);
        (split; [cbn; discriminate |]);
        (split; [cbn; discriminate | reflexivity]).
Qed.

Lemma C3_where_poll_deadlines_are_written_witness :
  assistedRequest Samples.sample_env
    "Create a 4 second sunset video with gentle waves" "job-7"
  = Returns (mkAnalyzed "veo-3.1-fast-generate-preview"
               Samples.video_request ["video requested"; "duration 4"])
  /\ meta_field ttl
       (transformed_job Samples.sample_env "user-123"
          "Create a 4 second sunset video with gentle waves"
          (mkAnalyzed "veo-3.1-fast-generate-preview"
             Samples.video_request ["video requested"; "duration 4"])
          1700000000000)
     = Some (1700000000000 + 5400000).
Proof.
  split; [reflexivity |].
  pose proof (proj2 (proj2
                (C3_where_poll_deadlines_are_written Samples.sample_env
                   "job-7"))
                "Create a 4 second sunset video with gentle waves"
                "user-123" (init_state Samples.text_job)
                (mkAnalyzed "veo-3.1-fast-generate-preview"
                   Samples.video_request ["video requested"; "duration 4"])
                eq_refl) as H.
  cbv zeta in H. destruct H as (_ & _ & Httl & _).
  exact Httl.
Defined.

(** ** The poller *)

(** C8: recording a poll error is one update of four keys under
    [metadata/].  The counter becomes the passed attempt plus one, that is,
    the stored counter incremented by exactly one when the caller passes
    the stored counter; [nextPoll], [lastError] and [updatedAt] are computed
    from the readings of [Date.now()] taken while the payload is built
    ([nextPoll] is its reading plus [POLL_INTERVAL_MS]).  The status and
    every other field of the record, and the other metadata fields, are
    left as they were. *)
Theorem C8_poll_error_changes_only_metadata :
  forall (env : Env) (jobPath : string) (currentAttempt : Z) (st : State),
    meta_field attempt (store st) = Some currentAttempt ->
    let t1 := clock env (ticks st) in
    let t2 := clock env (S (ticks st)) in
    let t3 := clock env (S (S (ticks st))) in
    let r := recordPollError env jobPath currentAttempt st in
    let before := store st in
    let after := store (final_state r) in
    outcome_of r = Ok tt
    /\ trace (final_state r)
       = (trace st ++
          [ EvUpdate jobPath
              [ W_meta_attempt (currentAttempt + 1);
                W_meta_nextPoll (t1 + POLL_INTERVAL_MS env);
                W_meta_lastError t2;
                W_meta_updatedAt t3 ] ])%list
    /\ (meta_field attempt after = Some (currentAttempt + 1)
        /\ meta_field nextPoll after = Some (t1 + POLL_INTERVAL_MS env)
        /\ meta_field lastError after = Some t2
        /\ meta_field updatedAt after = Some t3)
    /\ (status after = status before
        /\ uid after = uid before
        /\ model after = model before
        /\ request after = request before
        /\ assisted after = assisted before
        /\ response after = response before
        /\ files after = files before
        /\ error after = error before)
    /\ (meta_field version after = meta_field version before
        /\ meta_field createdAt after = meta_field createdAt before
        /\ meta_field operation after = meta_field operation before
        /\ meta_field ttl after = meta_field ttl before).
Proof.
  intros env jobPath currentAttempt st Hattempt t1 t2 t3 r before after.
  subst r before after t1 t2 t3.
  destruct st as [j n tr]. cbn [store ticks trace] in *.
  unfold recordPollError. run_monad.
  unfold final_state, outcome_of. cbn [fst snd store trace].
  unfold meta_field in *.
  destruct j as [u m s rq a rs fl er [md |]];
    cbn in Hattempt; [| discriminate].
  repeat split; reflexivity.
Qed.

Lemma C8_poll_error_witness :
  meta_field attempt (store (init_state Samples.running_job)) = Some 3
  /\ meta_field attempt
       (store (final_state
                 (recordPollError Samples.sample_env "firegen-jobs/job-1" 3
                    (init_state Samples.running_job)))) = Some 4
  /\ status
       (store (final_state
                 (recordPollError Samples.sample_env "firegen-jobs/job-1" 3
                    (init_state Samples.running_job)))) = running.
Proof.
  pose proof (C8_poll_error_changes_only_metadata Samples.sample_env
                "firegen-jobs/job-1" 3 (init_state Samples.running_job)
                eq_refl) as H.
  cbv zeta in H.
  destruct H as (_ & _ & (Hattempt & _) & (Hstatus & _) & _).
  split; [reflexivity | split; [exact Hattempt | exact Hstatus]].
Defined.

(** C10, as stated, fails: a record whose [ttl] is present with the value 0
    is not reported expired although the current time is greater. *)
Lemma C10_zero_ttl_is_never_expired :
  meta_field ttl Samples.zero_ttl_job = Some 0
  /\ 0 < clock Samples.sample_env 0
  /\ outcome_of (isJobExpired Samples.sample_env Samples.zero_ttl_job
                   (init_state Samples.zero_ttl_job)) = Ok false.
Proof. vm_compute. repeat split. Qed.

(** C10 (amended): [isJobExpired] returns [true] if and only if
    [metadata.ttl] is present, is not 0, and the current time is strictly
    greater than it; a job without [metadata.ttl] is never expired. *)
Theorem C10_isJobExpired_spec :
  forall (env : Env) (job : JobNode) (st : State),
    exists b : bool,
      outcome_of (isJobExpired env job st) = Ok b
      /\ (b = true <->
          exists t, meta_field ttl job = Some t /\ t <> 0
                    /\ clock env (ticks st) > t)
      /\ (meta_field ttl job = None -> b = false).
Proof.
  intros env job st. unfold isJobExpired, truthy_opt_number.
  destruct (meta_field ttl job) as [t |].
  - destruct (Z.eqb_spec t 0) as [Hz | Hnz]; run_monad.
    + exists false. cbn. split; [reflexivity | split].
      * split; [discriminate |].
        intros (t' & Ht & Hne & _). inversion Ht; subst. contradiction.
      * discriminate.
    + exists (Z.ltb t (clock env (ticks st))). cbn.
      split; [reflexivity | split].
      * rewrite Z.ltb_lt. split.
        -- intros Hlt. exists t. repeat split; [assumption | lia].
        -- intros (t' & Ht & _ & Hgt). inversion Ht; subst. lia.
      * discriminate.
  - run_monad. exists false. cbn. split; [reflexivity | split].
    + split; [discriminate | intros (t' & Ht & _); discriminate].
    + reflexivity.
Qed.

(** ** Round trip of storage references through the tagging codec *)

Module UrlCodecFacts.

Import UrlCodec.
Local Open Scope nat_scope.










(** *** The scan *)














Lemma text_pieces_app (a b : string) :
  text_pieces (a ++ b) = (text_pieces a ++ text_pieces b)%list.
Proof.
  induction a as [| x a IH]; cbn [append text_pieces app]; [reflexivity |].
  rewrite IH. reflexivity.
Qed.







(** *** The table *)




(** *** Resolution inside strings *)







(** *** Resolution over the request *)





(** Media types read off the extension. *)
Lemma all_alnum_with_dot (r x : string) :
  all_alnum (r ++ String "." x) = false.
Proof.
  induction r as [| c r IH]; cbn [append all_alnum].
  - reflexivity.
  - rewrite IH. apply andb_false_r.
Qed.

Lemma match_extension_suffix (s ext : string) :
  truthy_string ext = true ->
  all_alnum ext = true ->
  match_extension (s ++ String "." ext) = Some ext.
Proof.
  intros Hne Halnum.
  induction s as [| c s IH]; cbn [append match_extension].
  - change (Ascii.eqb "." ".") with true. rewrite Hne, Halnum. reflexivity.
  - rewrite all_alnum_with_dot, andb_false_r. exact IH.
Qed.





End UrlCodecFacts.

(** * Further properties of the orchestrator and the poller *)

(** ** File extensions *)

Lemma truthy_string_nonempty (s : string) :
  truthy_string s = true <-> s <> "".
Proof.
  unfold truthy_string. destruct (String.eqb_spec s ""); cbn; split;
    congruence.
Qed.

Lemma match_extension_sound (s : string) :
  forall e : string,
    match_extension s = Some e ->
    exists p, s = p ++ String "." e /\ e <> "" /\ all_alnum e = true.
Proof.
  induction s as [| c r IH]; intros e; cbn [match_extension].
  - discriminate.
  - destruct (Ascii.eqb c "." && truthy_string r && all_alnum r) eqn:Hcond.
    + intros [= <-].
      apply andb_true_iff in Hcond. destruct Hcond as [Hcond Halnum].
      apply andb_true_iff in Hcond. destruct Hcond as [Hdot Hne].
      apply Ascii.eqb_eq in Hdot. subst c.
      exists "". repeat split; [| assumption].
      apply truthy_string_nonempty. assumption.
    + intros Hrec. destruct (IH e Hrec) as (p & Hs & Hne & Halnum).
      exists (String c p). rewrite Hs. repeat split; assumption.
Qed.

Lemma has_dot_none (s : string) :
  has_dot s = false -> match_extension s = None.
Proof.
  induction s as [| c r IH]; cbn [has_dot match_extension]; [reflexivity |].
  intros H. apply orb_false_iff in H. destruct H as [Hc Hr].
  rewrite Hc. cbn [andb]. apply IH. assumption.
Qed.

Lemma inherited_key_lookup (k : string) :
  In k object_prototype_keys ->
  own_entry typeMap_own k = None
  /\ existsb (String.eqb k) object_prototype_keys = true
  /\ truthy_string k = true.
Proof.
  intros Hin. cbn [In object_prototype_keys] in Hin.
  repeat match goal with
         | H : _ \/ _ |- _ => destruct H as [H | H]
         | H : False |- _ => contradiction
         | H : _ = k |- _ => subst k
         end; repeat split.
Qed.

Lemma typeMap_range (m : string) :
  typeMap m = None
  \/ (exists e, typeMap m = Some (ExtText ("." ++ e))
                /\ e <> "" /\ all_alnum e = true)
  \/ (typeMap m = Some (ExtInherited m) /\ In m object_prototype_keys).
Proof.
  unfold typeMap, typeMap_own. cbn [own_entry].
  repeat match goal with
         | |- context [String.eqb ?s m] => destruct (String.eqb s m)
         end.
  - right. left. exists "mp4". repeat split; discriminate.
  - right. left. exists "png". repeat split; discriminate.
  - right. left. exists "jpg". repeat split; discriminate.
  - right. left. exists "wav". repeat split; discriminate.
  - right. left. exists "mp3". repeat split; discriminate.
  - destruct (existsb (String.eqb m) object_prototype_keys) eqn:Hkeys;
      [| left; reflexivity].
    right. right. split; [reflexivity |].
    apply existsb_exists in Hkeys. destruct Hkeys as (k & Hin & Heq).
    apply String.eqb_eq in Heq. subst k. assumption.
Qed.

(** X1: the pattern [/\.([a-z0-9]+)$/i] of [getFileExtension] matches
    exactly the strings that end in a dot followed by one or more ASCII
    letters or digits, and it captures that final run. *)
Theorem X1_extension_pattern_spec :
  forall (s e : string),
    match_extension s = Some e
    <-> exists p, s = p ++ String "." e /\ e <> "" /\ all_alnum e = true.
Proof.
  intros s e. split.
  - apply match_extension_sound.
  - intros (p & -> & Hne & Halnum).
    apply UrlCodecFacts.match_extension_suffix; [| assumption].
    apply truthy_string_nonempty. assumption.
Qed.

(** X2: whatever the URI and the media type, [getFileExtension] returns
    the empty string, or a dot followed by one or more ASCII letters or
    digits, or, when the URI gives no extension and the media type is the
    name of a member of [Object.prototype], that inherited member, which is
    not a string.  The last case happens: for the media type
    [constructor] the name of the first file is built from the source text
    of a function. *)
Theorem X2_getFileExtension_shape :
  (forall (uri_ mimeType_ : option string),
      getFileExtension uri_ mimeType_ = ExtText ""
      \/ (exists e, getFileExtension uri_ mimeType_ = ExtText ("." ++ e)
                    /\ e <> "" /\ all_alnum e = true)
      \/ (exists k, mimeType_ = Some k
                    /\ In k object_prototype_keys
                    /\ getFileExtension uri_ mimeType_ = ExtInherited k))
  /\ getFileExtension None (Some "constructor") = ExtInherited "constructor"
  /\ ext_text (getFileExtension None (Some "constructor"))
     = "function Object() { [native code] }".
Proof.
  split; [| split; reflexivity].
  intros uri_ mimeType_.
  assert (Hfrom :
            forall v : ExtValue,
              v = match mimeType_ with
                  | Some m => if truthy_string m
                              then match typeMap m with
                                   | Some e => e
                                   | None => ExtText ""
                                   end
                              else ExtText ""
                  | None => ExtText ""
                  end ->
              v = ExtText ""
              \/ (exists e, v = ExtText ("." ++ e)
                            /\ e <> "" /\ all_alnum e = true)
              \/ (exists k, mimeType_ = Some k
                            /\ In k object_prototype_keys
                            /\ v = ExtInherited k)).
  { intros v ->. destruct mimeType_ as [m |]; [| left; reflexivity].
    destruct (truthy_string m); [| left; reflexivity].
    destruct (typeMap_range m) as [H | [(e & H & Hne & Halnum) | [H Hin]]];
      rewrite H.
    - left. reflexivity.
    - right. left. exists e. repeat split; assumption.
    - right. right. exists m. repeat split; assumption. }
  unfold getFileExtension.
  destruct uri_ as [u |]; [| apply Hfrom; reflexivity].
  destruct (truthy_string u); [| apply Hfrom; reflexivity].
  destruct (match_extension u) as [e |] eqn:Hmatch;
    [| apply Hfrom; reflexivity].
  destruct (match_extension_sound u e Hmatch) as (p & _ & Hne & Halnum).
  right. left. exists e. repeat split; assumption.
Qed.

(** X3: an extension at the end of the URI wins over the media type: for a
    URI that ends in a dot and a run of letters or digits,
    [getFileExtension] returns that dot and run, whatever [mimeType] is. *)
Theorem X3_uri_extension_takes_precedence :
  forall (p e : string) (mimeType_ : option string),
    e <> "" ->
    all_alnum e = true ->
    getFileExtension (Some (p ++ String "." e)) mimeType_ = "." ++ e.
Proof.
  intros p e mimeType_ Hne Halnum. unfold getFileExtension.
  assert (Htruthy : truthy_string (p ++ String "." e) = true).
  { apply truthy_string_nonempty. destruct p; discriminate. }
  rewrite Htruthy.
  rewrite UrlCodecFacts.match_extension_suffix;
    [reflexivity | apply truthy_string_nonempty; assumption | assumption].
Qed.

Lemma X3_uri_extension_witness :
  "mp4" <> ""
  /\ all_alnum "mp4" = true
  /\ getFileExtension (Some "gs://bucket/firegen-jobs/j/clip.mp4")
       (Some "image/png") = ".mp4".
Proof.
  split; [discriminate | split; [reflexivity |]].
  exact (X3_uri_extension_takes_precedence "gs://bucket/firegen-jobs/j/clip"
           "mp4" (Some "image/png") ltac:(discriminate) eq_refl).
Defined.

(** X4: when the URI holds no dot, the extension comes from the lookup
    [typeMap[mimeType]] alone, as if no URI had been given: the entry of the
    table for the five media types it lists, the member inherited from
    [Object.prototype] when the media type is the name of one, and the empty
    string when the media type is missing or is neither. *)
Theorem X4_extension_falls_back_to_media_type :
  forall (u : string) (mimeType_ : option string),
    has_dot u = false ->
    getFileExtension (Some u) mimeType_ = getFileExtension None mimeType_
    /\ (mimeType_ = None -> getFileExtension (Some u) mimeType_ = ExtText "")
    /\ (forall m e,
          mimeType_ = Some m ->
          own_entry typeMap_own m = Some e ->
          getFileExtension (Some u) mimeType_ = ExtText e)
    /\ (forall k,
          mimeType_ = Some k ->
          In k object_prototype_keys ->
          getFileExtension (Some u) mimeType_ = ExtInherited k)
    /\ (forall m,
          mimeType_ = Some m ->
          own_entry typeMap_own m = None ->
          ~ In m object_prototype_keys ->
          getFileExtension (Some u) mimeType_ = ExtText "").
Proof.
  intros u mimeType_ Hdot. unfold getFileExtension.
  rewrite (has_dot_none u Hdot).
  split; [destruct (truthy_string u); reflexivity |].
  split; [intros ->; destruct (truthy_string u); reflexivity |].
  split; [| split].
  - intros m e -> Hown.
    assert (Htruthy : truthy_string m = true).
    { apply truthy_string_nonempty. intros ->. discriminate Hown. }
    unfold typeMap. rewrite Htruthy, Hown.
    destruct (truthy_string u); reflexivity.
  - intros k -> Hin.
    destruct (inherited_key_lookup k Hin) as (Hown & Hkeys & Htruthy).
    unfold typeMap. rewrite Htruthy, Hown, Hkeys.
    destruct (truthy_string u); reflexivity.
  - intros m -> Hown Hnot.
    assert (Hkeys : existsb (String.eqb m) object_prototype_keys = false).
    { destruct (existsb (String.eqb m) object_prototype_keys) eqn:Hkeys;
        [| reflexivity].
      exfalso. apply Hnot.
      apply existsb_exists in Hkeys. destruct Hkeys as (k & Hin & Heq).
      apply String.eqb_eq in Heq. subst k. assumption. }
    unfold typeMap. rewrite Hown, Hkeys.
    destruct (truthy_string u), (truthy_string m); reflexivity.
Qed.

Lemma X4_extension_fallback_witness :
  has_dot "gs://bucket/clip" = false
  /\ getFileExtension (Some "gs://bucket/clip") (Some "audio/mpeg")
     = ExtText ".mp3"
  /\ getFileExtension (Some "gs://bucket/clip") (Some "toString")
     = ExtInherited "toString".
Proof.
  split; [reflexivity |].
  pose proof (X4_extension_falls_back_to_media_type "gs://bucket/clip") as H.
  split.
  - destruct (H (Some "audio/mpeg") eq_refl) as (_ & _ & Hown & _).
    exact (Hown "audio/mpeg" ".mp3" eq_refl eq_refl).
  - destruct (H (Some "toString") eq_refl) as (_ & _ & _ & Hinh & _).
    apply (Hinh "toString" eq_refl). cbn. tauto.
Defined.

(** ** Outcomes of [startJob] *)

Lemma truthy_opt_some_nonempty (op : string) :
  op <> "" -> truthy_opt_string (Some op) = true.
Proof. intros H. apply truthy_string_nonempty. assumption. Qed.

(** After the case analysis, replace the truthiness tests left in the goal
    by their values and compute the stored node. *)
Local Ltac settle_truthy :=
  repeat match goal with
         | H : ?op <> EmptyString
           |- context [truthy_opt_string (Some ?op)] =>
             rewrite (truthy_opt_some_nonempty op H)
         | H : ?op = EmptyString
           |- context [truthy_opt_string (Some ?op)] =>
             rewrite H; change (truthy_opt_string (Some "")) with false
         end;
  change (truthy_opt_string None) with false.

Local Ltac read_result :=
  unfold final_state, outcome_of; cbn [fst snd store ticks trace].

(** X5: [startJob] never throws and never leaves the job in [starting]:
    the stored status at the end is [running], [succeeded] or [failed], and
    it is [running] exactly when the adapter answered with an operation
    handle and the task queue accepted the first poll task.  In every other
    case the stored job is terminal for [isJobTerminal]. *)
Theorem X5_startJob_ends_running_or_terminal :
  forall (env : Env) (jobId : string) (job : JobNode) (st : State),
    let r := startJob env jobId job st in
    outcome_of r = Ok tt
    /\ (status (store (final_state r)) = running
        \/ status (store (final_state r)) = succeeded
        \/ status (store (final_state r)) = failed)
    /\ (status (store (final_state r)) = running
        <-> takes_async_path env jobId job && first_poll_accepted env jobId
            = true)
    /\ isJobTerminal (store (final_state r))
       = negb (takes_async_path env jobId job
               && first_poll_accepted env jobId).
Proof.
  intros env jobId job st r. subst r.
  unfold takes_async_path, first_poll_accepted.
  all_branches env jobId job st; settle_truthy; read_result;
    (split; [reflexivity |]);
    (split; [first [ left; reflexivity
                   | right; left; reflexivity
                   | right; right; reflexivity ] |]);
    cbn; rewrite ?andb_false_r;
    (split; [split; first [reflexivity | discriminate] | reflexivity]).
Qed.

(** X6: [startJob] never touches the identity of the job: the stored
    [uid], [model], [request] and [assisted] are, at the end of every run,
    what they were at its start. *)
Theorem X6_startJob_preserves_job_identity :
  forall (env : Env) (jobId : string) (job : JobNode) (st : State),
    let after := store (final_state (startJob env jobId job st)) in
    uid after = uid (store st)
    /\ model after = model (store st)
    /\ request after = request (store st)
    /\ assisted after = assisted (store st).
Proof.
  intros env jobId job st after. subst after.
  all_branches env jobId job st; read_result; repeat split; reflexivity.
Qed.

(** X7: the first effect of every run of [startJob] is the update that sets
    status [starting] and [metadata/updatedAt]; every call of the adapter,
    the signer or the task queue comes after it, and so do the one or two
    further updates of the run. *)
Theorem X7_starting_is_written_first :
  forall (env : Env) (jobId : string) (job : JobNode) (st : State),
    exists rest,
      trace (final_state (startJob env jobId job st))
      = (trace st ++
         EvUpdate (job_path jobId)
           [ W_status starting; W_meta_updatedAt (clock env (ticks st)) ]
         :: rest)%list
      /\ (count_events is_store_write rest = 1%nat
          \/ count_events is_store_write rest = 2%nat)
      /\ count_events is_set rest = 0%nat.
Proof.
  intros env jobId job st.
  all_branches env jobId job st; read_result;
    eexists; (split; [reflexivity |]);
    (split; [first [left; reflexivity | right; reflexivity] | reflexivity]).
Qed.

(** ** Failures inside [startJob] *)

(** X8: when the adapter's [start] throws a schema-validation error, the
    job ends [failed] with code [VALIDATION_ERROR]; the message lists every
    issue as its dotted field path, a colon and the issue text, separated by
    commas.  The submission was attempted once and no poll is scheduled. *)
Theorem X8_validation_error_is_reported :
  forall (env : Env) (jobId : string) (job : JobNode) (st : State)
         (issues : list ZodIssue) (zmsg : string) (stk : option string),
    isValidModelId env (model job) = true ->
    adapter_start env (model job) (request job) jobId
    = Throws (ThrownZodError issues zmsg stk) ->
    let r := startJob env jobId job st in
    outcome_of r = Ok tt
    /\ status (store (final_state r)) = failed
    /\ error (store (final_state r))
       = Some (mkJobError "VALIDATION_ERROR"
                 ("Validation failed: "
                  ++ String.concat ", "
                       (map (fun e => String.concat "." (path e) ++ ": "
                                      ++ issue_message e) issues))
                 None)
    /\ backend_submissions (trace (final_state r))
       = S (backend_submissions (trace st))
    /\ count_events is_enqueue (trace (final_state r))
       = count_events is_enqueue (trace st).
Proof.
  intros env jobId job st issues zmsg stk Hvalid Hthrow r. subst r.
  rewrite (startJob_adapter_throws env jobId job st _ Hvalid Hthrow).
  read_result. unfold backend_submissions. rewrite !count_events_app.
  repeat split; cbn; lia.
Qed.

Lemma X8_validation_error_witness :
  error (store (final_state
                  (startJob FailingSamples.rejecting_env "job-8"
                     Samples.video_job (init_state Samples.video_job))))
  = Some (mkJobError "VALIDATION_ERROR"
            "Validation failed: instances.0.prompt: Required, parameters.durationSeconds: Expected number"
            None).
Proof.
  exact (proj1 (proj2 (proj2
           (X8_validation_error_is_reported FailingSamples.rejecting_env
              "job-8" Samples.video_job (init_state Samples.video_job)
              [FailingSamples.prompt_issue; FailingSamples.duration_issue]
              "[...]" None eq_refl eq_refl)))).
Defined.

(** X9: when the adapter's [start] throws anything else, the job ends
    [failed] with code [START_FAILED]; the message is the message of the
    thrown object when it has one, and ["Start failed"] when the thrown value
    is an object without a message or is not an object. *)
Theorem X9_start_failure_message :
  forall (env : Env) (jobId : string) (job : JobNode) (st : State)
         (e : Thrown),
    isValidModelId env (model job) = true ->
    adapter_start env (model job) (request job) jobId = Throws e ->
    (forall issues zmsg stk, e <> ThrownZodError issues zmsg stk) ->
    let r := startJob env jobId job st in
    exists msg,
      status (store (final_state r)) = failed
      /\ error (store (final_state r))
         = Some (mkJobError "START_FAILED" msg None)
      /\ (forall n m stk, e = ThrownError n m stk -> msg = m)
      /\ (forall m, e = ThrownObject (Some m) -> msg = m)
      /\ (e = ThrownObject None \/ e = ThrownPrimitive ->
          msg = "Start failed").
Proof.
  intros env jobId job st e Hvalid Hthrow Hzod r. subst r.
  rewrite (startJob_adapter_throws env jobId job st _ Hvalid Hthrow).
  read_result.
  destruct e as [issues zmsg stk | n m stk | [m |] |].
  - exfalso. apply (Hzod issues zmsg stk). reflexivity.
  - exists m. repeat split; try congruence.
    intros [H | H]; discriminate.
  - exists m. repeat split; try congruence.
    intros [H | H]; discriminate.
  - exists "Start failed". repeat split; intros; congruence.
  - exists "Start failed". repeat split; intros; congruence.
Qed.

Lemma X9_start_failure_witness :
  error (store (final_state
                  (startJob FailingSamples.primitive_env "job-9"
                     Samples.video_job (init_state Samples.video_job))))
  = Some (mkJobError "START_FAILED" "Start failed" None).
Proof.
  destruct (X9_start_failure_message FailingSamples.primitive_env "job-9"
              Samples.video_job (init_state Samples.video_job)
              ThrownPrimitive eq_refl eq_refl
              ltac:(intros; discriminate))
    as (msg & _ & Herr & _ & _ & Hmsg).
  rewrite Herr, (Hmsg (or_intror eq_refl)). reflexivity.
Defined.

(** X10: when the adapter returned a stored output but signing its URL
    throws, no success is written: the job ends [failed] with the signer's
    error, and [response] and [files] stay as they were, although the
    backend call was made. *)
Theorem X10_signing_failure_fails_the_job :
  forall (env : Env) (jobId : string) (job : JobNode) (st : State)
         (res : StartResult) (out : ModelOutput) (u : string) (e : Thrown),
    isValidModelId env (model job) = true ->
    adapter_start env (model job) (request job) jobId = Returns res ->
    truthy_opt_string (operationName res) = false ->
    output res = Some out ->
    uri out = Some u ->
    u <> "" ->
    generateSignedUrl env u = Throws e ->
    let r := startJob env jobId job st in
    outcome_of r = Ok tt
    /\ status (store (final_state r)) = failed
    /\ error (store (final_state r)) = Some (start_failure e)
    /\ response (store (final_state r)) = response (store st)
    /\ files (store (final_state r)) = files (store st)
    /\ success_files (trace (final_state r)) = success_files (trace st)
    /\ backend_submissions (trace (final_state r))
       = S (backend_submissions (trace st)).
Proof.
  intros env jobId job st res out u e Hvalid Hstart Hfalsy Hout Huri Hne
         Hsign r.
  subst r.
  rewrite (startJob_sync_media env jobId job st res out u
             Hvalid Hstart Hfalsy Hout Huri Hne), Hsign.
  read_result. unfold backend_submissions.
  rewrite success_files_app, count_events_app.
  repeat split; cbn; first [lia | apply app_nil_r].
Qed.

Lemma X10_signing_failure_witness :
  status (store (final_state
                   (startJob FailingSamples.unsigned_env "job-2"
                      Samples.image_job (init_state Samples.image_job))))
  = failed
  /\ error (store (final_state
                     (startJob FailingSamples.unsigned_env "job-2"
                        Samples.image_job (init_state Samples.image_job))))
     = Some (mkJobError "START_FAILED" "signBlob denied" None).
Proof.
  pose proof (X10_signing_failure_fails_the_job FailingSamples.unsigned_env
                "job-2" Samples.image_job (init_state Samples.image_job)
                (mkStartResult None (Some Samples.image_output)
                   (Some (JObj [("candidates", JArr [])])))
                Samples.image_output
                "gs://bucket/firegen-jobs/job-2/image.png"
                (new_Error "signBlob denied")
                eq_refl eq_refl eq_refl eq_refl eq_refl
                ltac:(discriminate) eq_refl) as H.
  cbv zeta in H. destruct H as (_ & Hstatus & Herror & _).
  split; [exact Hstatus | exact Herror].
Defined.

(** X11: when the backend operation was started but enqueueing the first
    poll throws, the job ends [failed] with the queue's error; the
    [running] write is not undone, so the record keeps the operation handle,
    [ttl], [attempt] and [nextPoll] of that write. *)
Theorem X11_enqueue_failure_after_running :
  forall (env : Env) (jobId : string) (job : JobNode) (st : State)
         (res : StartResult) (op : string) (e : Thrown),
    isValidModelId env (model job) = true ->
    adapter_start env (model job) (request job) jobId = Returns res ->
    operationName res = Some op ->
    op <> "" ->
    queue_enqueue env "onJobPoll" (extension_id env) (job_path jobId)
      (ceil_div_1000 (POLL_INTERVAL_MS env)) 60 = Throws e ->
    let now := clock env (S (ticks st)) in
    let after := store (final_state (startJob env jobId job st)) in
    outcome_of (startJob env jobId job st) = Ok tt
    /\ status after = failed
    /\ error after = Some (start_failure e)
    /\ meta_field operation after = Some op
    /\ meta_field ttl after = Some (now + JOB_TTL_MS env)
    /\ meta_field attempt after = Some 0
    /\ meta_field nextPoll after = Some (now + POLL_INTERVAL_MS env)
    /\ backend_submissions (trace (final_state (startJob env jobId job st)))
       = S (backend_submissions (trace st)).
Proof.
  intros env jobId job st res op e Hvalid Hstart Hop Hne Hqueue now after.
  subst after now.
  rewrite (startJob_async env jobId job st res op Hvalid Hstart Hop Hne).
  cbv zeta. rewrite Hqueue. read_result. unfold backend_submissions.
  rewrite count_events_app.
  repeat split; cbn; lia.
Qed.

Lemma X11_enqueue_failure_witness :
  status (store (final_state
                   (startJob FailingSamples.queueless_env "job-1"
                      Samples.video_job (init_state Samples.video_job))))
  = failed
  /\ meta_field operation
       (store (final_state
                 (startJob FailingSamples.queueless_env "job-1"
                    Samples.video_job (init_state Samples.video_job))))
     = Some "operations/op-1".
Proof.
  pose proof (X11_enqueue_failure_after_running FailingSamples.queueless_env
                "job-1" Samples.video_job (init_state Samples.video_job)
                (mkStartResult (Some "operations/op-1") None None)
                "operations/op-1" (new_Error "queue not found")
                eq_refl eq_refl eq_refl ltac:(discriminate) eq_refl) as H.
  cbv zeta in H. destruct H as (_ & Hstatus & _ & Hop & _).
  split; [exact Hstatus | exact Hop].
Defined.

(** ** What each path of [startJob] leaves alone *)

(** X12: a synchronous answer never schedules a poll and never touches the
    polling metadata: when the adapter returned an output and no operation
    handle, the run enqueues nothing, and [operation], [ttl], [attempt],
    [nextPoll] and [lastError] of the record are what they were, whether
    the job ends [succeeded] or [failed]. *)
Theorem X12_sync_path_never_polls :
  forall (env : Env) (jobId : string) (job : JobNode) (st : State)
         (res : StartResult) (out : ModelOutput),
    isValidModelId env (model job) = true ->
    adapter_start env (model job) (request job) jobId = Returns res ->
    truthy_opt_string (operationName res) = false ->
    output res = Some out ->
    let r := startJob env jobId job st in
    let after := store (final_state r) in
    count_events is_enqueue (trace (final_state r))
    = count_events is_enqueue (trace st)
    /\ meta_field operation after = meta_field operation (store st)
    /\ meta_field ttl after = meta_field ttl (store st)
    /\ meta_field attempt after = meta_field attempt (store st)
    /\ meta_field nextPoll after = meta_field nextPoll (store st)
    /\ meta_field lastError after = meta_field lastError (store st)
    /\ (status after = succeeded \/ status after = failed).
Proof.
  intros env jobId job st res out Hvalid Hstart Hfalsy Hout r after.
  subst after r.
  destruct (has_media_reference out) eqn:Hmedia.
  - destruct (proj1 (has_media_reference_spec out) Hmedia)
      as (u & Huri & Hne).
    rewrite (startJob_sync_media env jobId job st res out u
               Hvalid Hstart Hfalsy Hout Huri Hne).
    destruct (generateSignedUrl env u) as [signedUrl | e];
      read_result; rewrite count_events_app;
      destruct st as [[ju jm js jr ja jrs jf je [md |]] n tr];
      cbn; repeat split; auto.
  - rewrite (startJob_sync_text env jobId job st res out
               Hvalid Hstart Hfalsy Hout Hmedia).
    read_result. rewrite count_events_app.
    destruct st as [[ju jm js jr ja jrs jf je [md |]] n tr];
      cbn; repeat split; auto.
Qed.

Lemma X12_sync_path_witness :
  count_events is_enqueue
    (trace (final_state
              (startJob Samples.sample_env "job-2" Samples.image_job
                 (init_state Samples.image_job)))) = 0%nat
  /\ meta_field ttl
       (store (final_state
                 (startJob Samples.sample_env "job-2" Samples.image_job
                    (init_state Samples.image_job)))) = None.
Proof.
  pose proof (X12_sync_path_never_polls Samples.sample_env "job-2"
                Samples.image_job (init_state Samples.image_job)
                (mkStartResult None (Some Samples.image_output)
                   (Some (JObj [("candidates", JArr [])])))
                Samples.image_output eq_refl eq_refl eq_refl eq_refl) as H.
  cbv zeta in H. destruct H as (Hcount & _ & Httl & _).
  split; [exact Hcount | exact Httl].
Defined.

(** X13: the writes of [startJob] are gated by the status they set.  Every
    update of a run goes to the node of the job and sets one status and
    [metadata/updatedAt]: the payload has the key [error] together with
    [failed] and only then, the key [response] together with [succeeded]
    and only then, the key [files] (with the value [undefined] when no file
    was built) together with [succeeded] and only then, and the operation
    handle together with [running] and only then. *)
Theorem X13_writes_are_gated_by_status :
  forall (env : Env) (jobId : string) (job : JobNode) (st : State)
         (evs : list Event),
    trace (final_state (startJob env jobId job st)) = (trace st ++ evs)%list ->
    forall (p : string) (u : UpdatePayload),
      In (EvUpdate p u) evs ->
      p = job_path jobId
      /\ List.length (filter sets_any_status u) = 1%nat
      /\ existsb sets_updatedAt u = true
      /\ existsb sets_error u = existsb (sets_status failed) u
      /\ existsb sets_response u = existsb (sets_status succeeded) u
      /\ existsb sets_files u = existsb (sets_status succeeded) u
      /\ existsb sets_operation u = existsb (sets_status running) u.
Proof.
  intros env jobId job st evs Htrace p u Hin. revert Htrace.
  all_branches env jobId job st; read_result;
    intros Htrace; apply app_inv_head in Htrace; subst evs;
    cbn [In app] in Hin;
    repeat match goal with
           | H : _ \/ _ |- _ => destruct H as [H | H]
           | H : False |- _ => contradiction
           | H : EvUpdate _ _ = EvUpdate _ _ |- _ =>
               inversion H; subst; clear H
           | H : _ = EvUpdate _ _ |- _ => try discriminate H
           end;
    repeat split.
Qed.

Lemma X13_writes_are_gated_witness :
  existsb sets_error
    (failed_payload (new_Error "Unknown model ID: imagen-9") 1700000000001)
  = existsb (sets_status failed)
      (failed_payload (new_Error "Unknown model ID: imagen-9") 1700000000001).
Proof.
  refine (proj1 (proj2 (proj2 (proj2
            (X13_writes_are_gated_by_status Samples.sample_env "job-5"
               Samples.unknown_job (init_state Samples.unknown_job)
               [ EvUpdate "firegen-jobs/job-5" (starting_payload 1700000000000);
                 EvUpdate "firegen-jobs/job-5"
                   (failed_payload (new_Error "Unknown model ID: imagen-9")
                      1700000000001) ]
               eq_refl "firegen-jobs/job-5"
               (failed_payload (new_Error "Unknown model ID: imagen-9")
                  1700000000001) _))))).
  right. left. reflexivity.
Defined.

(** X14: an asynchronous start writes nothing about a result: when the
    adapter answered with an operation handle and the first poll was
    enqueued, [response], [files] and [error] of the record are what they
    were, and the signer was not called. *)
Theorem X14_async_path_leaves_result_fields :
  forall (env : Env) (jobId : string) (job : JobNode) (st : State)
         (res : StartResult) (op : string),
    isValidModelId env (model job) = true ->
    adapter_start env (model job) (request job) jobId = Returns res ->
    operationName res = Some op ->
    op <> "" ->
    let r := startJob env jobId job st in
    let after := store (final_state r) in
    count_events is_sign_url (trace (final_state r))
    = count_events is_sign_url (trace st)
    /\ response after = response (store st)
    /\ files after = files (store st)
    /\ (first_poll_accepted env jobId = true ->
        status after = running /\ error after = error (store st)).
Proof.
  intros env jobId job st res op Hvalid Hstart Hop Hne r after.
  subst after r. unfold first_poll_accepted.
  rewrite (startJob_async env jobId job st res op Hvalid Hstart Hop Hne).
  cbv zeta.
  destruct (queue_enqueue env "onJobPoll" (extension_id env) (job_path jobId)
              (ceil_div_1000 (POLL_INTERVAL_MS env)) 60) as [[] | e];
    read_result; tidy_trace; rewrite count_events_app;
    repeat split; try (cbn; lia); discriminate.
Qed.

Lemma X14_async_path_witness :
  status (store (final_state
                   (startJob Samples.sample_env "job-1" Samples.video_job
                      (init_state Samples.video_job)))) = running
  /\ error (store (final_state
                     (startJob Samples.sample_env "job-1" Samples.video_job
                        (init_state Samples.video_job)))) = None.
Proof.
  pose proof (X14_async_path_leaves_result_fields Samples.sample_env "job-1"
                Samples.video_job (init_state Samples.video_job)
                (mkStartResult (Some "operations/op-1") None None)
                "operations/op-1" eq_refl eq_refl eq_refl
                ltac:(discriminate)) as H.
  cbv zeta in H. destruct H as (_ & _ & _ & Hrun).
  exact (Hrun eq_refl).
Defined.



(** ** The analyzer followed by [startJob] *)

(** X16: when the analysis succeeds, the node is replaced once by the
    transformed job and handed to [startJob].  At the end the record holds
    the owner, the model and request chosen by the analysis, the original
    prompt with the reasons of the analysis, and the version and creation
    time written at transformation; its status is [running], [succeeded]
    or [failed]; and the backend was called once if the chosen model is
    registered and not at all otherwise. *)
Theorem X16_analyzed_job_is_started :
  forall (env : Env) (jobId prompt_ uid_ : string) (st : State)
         (a : Analyzed),
    assistedRequest env prompt_ jobId = Returns a ->
    let r := analyzeAndTransformJob env jobId prompt_ uid_ st in
    let after := store (final_state r) in
    outcome_of r = Ok tt
    /\ uid after = uid_
    /\ model after = a_model a
    /\ request after = a_request a
    /\ assisted after = Some (mkAssisted prompt_ (a_reasons a))
    /\ meta_field version after = Some FIREGEN_VERSION
    /\ meta_field createdAt after = Some (clock env (ticks st))
    /\ (status after = running \/ status after = succeeded
        \/ status after = failed)
    /\ count_events is_analyze (trace (final_state r))
       = S (count_events is_analyze (trace st))
    /\ count_events is_set (trace (final_state r))
       = S (count_events is_set (trace st))
    /\ backend_submissions (trace (final_state r))
       = (backend_submissions (trace st)
          + if isValidModelId env (a_model a) then 1 else 0)%nat.
Proof.
  intros env jobId prompt_ uid_ st a Hret r after. subst after r.
  rewrite (analyze_returns_run env jobId prompt_ uid_ st a Hret).
  cbv zeta. unfold backend_submissions.
  change (a_model a)
    with (model (transformed_job env uid_ prompt_ a (clock env (ticks st)))).
  all_branches env jobId
    (transformed_job env uid_ prompt_ a (clock env (ticks st)))
    (mkState (transformed_job env uid_ prompt_ a (clock env (ticks st)))
       (S (ticks st))
       (trace st ++
        [ EvAnalyze prompt_ jobId;
          EvSet (job_path jobId)
            (transformed_job env uid_ prompt_ a (clock env (ticks st))) ])%list);
    read_result; rewrite !count_events_app;
    repeat split;
    first [ reflexivity
          | left; reflexivity
          | right; left; reflexivity
          | right; right; reflexivity
          | cbn; lia ].
Qed.

Lemma X16_analyzed_job_witness :
  assisted
    (store (final_state
              (analyzeAndTransformJob Samples.sample_env "job-7"
                 "Create a 4 second sunset video with gentle waves"
                 "user-123" (init_state Samples.text_job))))
  = Some (mkAssisted "Create a 4 second sunset video with gentle waves"
            ["video requested"; "duration 4"]).
Proof.
  pose proof (X16_analyzed_job_is_started Samples.sample_env "job-7"
                "Create a 4 second sunset video with gentle waves"
                "user-123" (init_state Samples.text_job)
                (mkAnalyzed "veo-3.1-fast-generate-preview"
                   Samples.video_request ["video requested"; "duration 4"])
                eq_refl) as H.
  cbv zeta in H. destruct H as (_ & _ & _ & _ & Hassisted & _).
  exact Hassisted.
Defined.

(** X17: when the analysis succeeds but chooses a model that the registry
    does not know, the job fails as a start failure, not as an analysis
    failure: it ends [failed] with code [START_FAILED], keeps the prompt and
    the reasons of the analysis and the chosen model, and no backend call is
    made. *)
Theorem X17_analyzed_unknown_model_is_a_start_failure :
  forall (env : Env) (jobId prompt_ uid_ : string) (st : State)
         (a : Analyzed),
    assistedRequest env prompt_ jobId = Returns a ->
    isValidModelId env (a_model a) = false ->
    let r := analyzeAndTransformJob env jobId prompt_ uid_ st in
    let after := store (final_state r) in
    outcome_of r = Ok tt
    /\ status after = failed
    /\ error after
       = Some (mkJobError "START_FAILED"
                 ("Unknown model ID: " ++ a_model a) None)
    /\ model after = a_model a
    /\ assisted after = Some (mkAssisted prompt_ (a_reasons a))
    /\ backend_submissions (trace (final_state r))
       = backend_submissions (trace st).
Proof.
  intros env jobId prompt_ uid_ st a Hret Hbad r after. subst after r.
  rewrite (analyze_returns_run env jobId prompt_ uid_ st a Hret).
  cbv zeta.
  rewrite startJob_unknown_model by exact Hbad.
  read_result. unfold backend_submissions. rewrite !count_events_app.
  repeat split. cbn. lia.
Qed.

Lemma X17_analyzed_unknown_model_witness :
  error
    (store (final_state
              (analyzeAndTransformJob FailingSamples.stray_analyzer_env
                 "job-11" "Paint a lighthouse at dusk" "user-123"
                 (init_state Samples.text_job))))
  = Some (mkJobError "START_FAILED" "Unknown model ID: imagen-9" None).
Proof.
  pose proof (X17_analyzed_unknown_model_is_a_start_failure
                FailingSamples.stray_analyzer_env "job-11"
                "Paint a lighthouse at dusk" "user-123"
                (init_state Samples.text_job)
                (mkAnalyzed "imagen-9" Samples.video_request
                   ["image requested"])
                eq_refl eq_refl) as H.
  cbv zeta in H. destruct H as (_ & _ & Herror & _).
  exact Herror.
Defined.

(** ** The polling scheduler *)

Lemma ceil_div_1000_bounds (delayMs : Z) :
  1000 * (ceil_div_1000 delayMs - 1) < delayMs <= 1000 * ceil_div_1000 delayMs.
Proof.
  unfold ceil_div_1000.
  pose proof (Z.div_mod (- delayMs) 1000 ltac:(lia)) as Hdm.
  pose proof (Z.mod_pos_bound (- delayMs) 1000 ltac:(lia)) as Hb.
  lia.
Qed.

(** X18: [enqueuePollTask] makes exactly one call of the task queue
    [onJobPoll], for the node [firegen-jobs/{jobId}], with a dispatch
    deadline of 60 seconds and a delay of whole seconds that is never
    shorter than the requested milliseconds and longer by less than one
    second.  It reads no clock and writes nothing to the record, and it
    throws exactly what the queue throws. *)
Theorem X18_enqueuePollTask_schedules_whole_seconds :
  forall (env : Env) (jobId : string) (delayMs : Z) (st : State),
    let r := enqueuePollTask_with env jobId delayMs st in
    exists secs : Z,
      trace (final_state r)
      = (trace st ++
         [ EvEnqueue "onJobPoll" (extension_id env) ("firegen-jobs/" ++ jobId)
             secs 60 ])%list
      /\ 1000 * (secs - 1) < delayMs <= 1000 * secs
      /\ store (final_state r) = store st
      /\ ticks (final_state r) = ticks st
      /\ outcome_of r
         = match queue_enqueue env "onJobPoll" (extension_id env)
                   ("firegen-jobs/" ++ jobId) secs 60 with
           | Returns _ => Ok tt
           | Throws e => Throw e
           end.
Proof.
  intros env jobId delayMs st r. subst r.
  exists (ceil_div_1000 delayMs).
  unfold enqueuePollTask_with. run_monad. fold (extension_id env).
  fold (job_path jobId).
  destruct (queue_enqueue env "onJobPoll" (extension_id env)
              (job_path jobId) (ceil_div_1000 delayMs) 60) as [[] | e];
    read_result;
    (split; [reflexivity |]);
    (split; [apply ceil_div_1000_bounds |]);
    repeat split; reflexivity.
Qed.

(** X19: the extension instance that owns the queue is the value of
    [EXT_INSTANCE_ID] when it is set to a non-empty string, and [firegen]
    when it is unset or empty. *)
Theorem X19_extension_id_default :
  forall (env : Env) (jobId : string) (delayMs : Z) (st : State),
    exists (ext : string) (secs deadline : Z),
      trace (final_state (enqueuePollTask_with env jobId delayMs st))
      = (trace st ++
         [ EvEnqueue "onJobPoll" ext ("firegen-jobs/" ++ jobId)
             secs deadline ])%list
      /\ (forall s, EXT_INSTANCE_ID env = Some s -> s <> "" -> ext = s)
      /\ (EXT_INSTANCE_ID env = None \/ EXT_INSTANCE_ID env = Some "" ->
          ext = "firegen").
Proof.
  intros env jobId delayMs st.
  exists (extension_id env), (ceil_div_1000 delayMs), 60.
  split; [| split].
  - unfold enqueuePollTask_with. run_monad. fold (extension_id env).
    fold (job_path jobId).
    destruct (queue_enqueue env "onJobPoll" (extension_id env)
                (job_path jobId) (ceil_div_1000 delayMs) 60) as [[] | e];
      reflexivity.
  - intros s Hs Hne. unfold extension_id. rewrite Hs.
    apply truthy_string_nonempty in Hne. rewrite Hne. reflexivity.
  - intros [H | H]; unfold extension_id; rewrite H; reflexivity.
Qed.

(** X20: counting a poll attempt is one update of three keys under
    [metadata/]: [attempt] becomes the passed attempt plus one, [nextPoll]
    the first clock reading plus [POLL_INTERVAL_MS] and [updatedAt] the
    second reading.  [lastError], [ttl], [operation], the status and every
    other field of the record are left as they were. *)
Theorem X20_incrementPollAttempt_frame :
  forall (env : Env) (jobPath : string) (currentAttempt : Z) (st : State),
    let r := incrementPollAttempt env jobPath currentAttempt st in
    let before := store st in
    let after := store (final_state r) in
    outcome_of r = Ok tt
    /\ trace (final_state r)
       = (trace st ++
          [ EvUpdate jobPath
              [ W_meta_attempt (currentAttempt + 1);
                W_meta_nextPoll (clock env (ticks st) + POLL_INTERVAL_MS env);
                W_meta_updatedAt (clock env (S (ticks st))) ] ])%list
    /\ (meta_field attempt after = Some (currentAttempt + 1)
        /\ meta_field nextPoll after
           = Some (clock env (ticks st) + POLL_INTERVAL_MS env)
        /\ meta_field updatedAt after = Some (clock env (S (ticks st))))
    /\ (meta_field lastError after = meta_field lastError before
        /\ meta_field ttl after = meta_field ttl before
        /\ meta_field operation after = meta_field operation before
        /\ meta_field version after = meta_field version before
        /\ meta_field createdAt after = meta_field createdAt before)
    /\ (status after = status before
        /\ uid after = uid before
        /\ model after = model before
        /\ request after = request before
        /\ assisted after = assisted before
        /\ response after = response before
        /\ files after = files before
        /\ error after = error before).
Proof.
  intros env jobPath currentAttempt st r before after.
  subst r before after.
  destruct st as [[ju jm js jr ja jrs jf je [md |]] n tr];
    unfold incrementPollAttempt; run_monad; read_result;
    repeat split; reflexivity.
Qed.

(** X21: a failed poll tick followed by a counted one, each passing the
    attempt it was given, advances [attempt] by two and keeps the
    [lastError] timestamp of the failed tick; the status and [ttl] are
    untouched by both. *)
Theorem X21_error_then_increment :
  forall (env : Env) (jobPath : string) (a : Z) (st : State),
    let r := error_then_increment env jobPath a st in
    let after := store (final_state r) in
    outcome_of r = Ok tt
    /\ meta_field attempt after = Some (a + 2)
    /\ meta_field lastError after = Some (clock env (S (ticks st)))
    /\ meta_field nextPoll after
       = Some (clock env (3 + ticks st)%nat + POLL_INTERVAL_MS env)
    /\ meta_field updatedAt after = Some (clock env (4 + ticks st)%nat)
    /\ meta_field ttl after = meta_field ttl (store st)
    /\ status after = status (store st)
    /\ count_events is_store_write (trace (final_state r))
       = S (S (count_events is_store_write (trace st))).
Proof.
  intros env jobPath a st r after. subst after r.
  destruct st as [[ju jm js jr ja jrs jf je [md |]] n tr];
    unfold error_then_increment, recordPollError, incrementPollAttempt;
    run_monad; read_result; rewrite !count_events_app;
    repeat split; try reflexivity; try (cbn; lia);
    cbn; f_equal; lia.
Qed.

(** X22: metadata made by [initializeJobMetadata] at time [now] carries the
    version of the build, [createdAt = updatedAt = now], [attempt = 0],
    [nextPoll = now + POLL_INTERVAL_MS] and [ttl = now + JOB_TTL_MS], and no
    operation handle or error time.  A job that carries it is reported
    expired by [isJobExpired] exactly when the clock has passed
    [now + JOB_TTL_MS] (that deadline not being the number 0). *)
Theorem X22_fresh_metadata_expires_after_ttl :
  forall (env : Env) (st : State),
    let now := clock env (ticks st) in
    exists m : Metadata,
      outcome_of (initializeJobMetadata env st) = Ok m
      /\ m = mkMetadata (Some FIREGEN_VERSION) (Some now) (Some now) None
               (Some (now + JOB_TTL_MS env)) (Some 0)
               (Some (now + POLL_INTERVAL_MS env)) None
      /\ forall (job : JobNode) (st' : State),
           metadata job = Some m ->
           now + JOB_TTL_MS env <> 0 ->
           outcome_of (isJobExpired env job st')
           = Ok (Z.ltb (now + JOB_TTL_MS env) (clock env (ticks st'))).
Proof.
  intros env st now. eexists. split; [reflexivity | split; [reflexivity |]].
  intros job st' Hmeta Hnz.
  unfold isJobExpired, meta_field. rewrite Hmeta.
  cbn [ttl truthy_opt_number].
  destruct (Z.eqb_spec (clock env (ticks st) + JOB_TTL_MS env) 0)
    as [Hz | _]; [contradiction |].
  run_monad. reflexivity.
Qed.

Lemma X22_fresh_metadata_witness :
  outcome_of
    (isJobExpired Samples.sample_env
       (mkJobNode "user-123" "veo-3.1-fast-generate-preview" requested
          Samples.video_request None None None None
          (Some (mkMetadata (Some FIREGEN_VERSION) (Some 1700000000000)
                   (Some 1700000000000) None (Some 1700005400000) (Some 0)
                   (Some 1700000001000) None)))
       (mkState Samples.video_job 7 []))
  = Ok false.
Proof.
  destruct (X22_fresh_metadata_expires_after_ttl Samples.sample_env
              (init_state Samples.video_job)) as (m & _ & Hm & Hexp).
  cbv zeta in Hm, Hexp. subst m.
  exact (Hexp
           (mkJobNode "user-123" "veo-3.1-fast-generate-preview" requested
              Samples.video_request None None None None
              (Some (mkMetadata (Some FIREGEN_VERSION) (Some 1700000000000)
                       (Some 1700000000000) None (Some 1700005400000)
                       (Some 0) (Some 1700000001000) None)))
           (mkState Samples.video_job 7 []) eq_refl ltac:(discriminate)).
Defined.

(** X23: a job that [startJob] has just moved to [running] at time [now] is
    reported expired by [isJobExpired] exactly when the clock has passed
    [now + JOB_TTL_MS]; until then it is not expired. *)
Theorem X23_running_job_expires_after_ttl :
  forall (env : Env) (jobId : string) (job : JobNode) (st st' : State)
         (res : StartResult) (op : string),
    isValidModelId env (model job) = true ->
    adapter_start env (model job) (request job) jobId = Returns res ->
    operationName res = Some op ->
    op <> "" ->
    first_poll_accepted env jobId = true ->
    clock env (S (ticks st)) + JOB_TTL_MS env <> 0 ->
    let started := store (final_state (startJob env jobId job st)) in
    status started = running
    /\ outcome_of (isJobExpired env started st')
       = Ok (Z.ltb (clock env (S (ticks st)) + JOB_TTL_MS env)
                   (clock env (ticks st')))
    /\ (clock env (ticks st') <= clock env (S (ticks st)) + JOB_TTL_MS env ->
        outcome_of (isJobExpired env started st') = Ok false).
Proof.
  intros env jobId job st st' res op Hvalid Hstart Hop Hne Hq Hnz started.
  subst started. unfold first_poll_accepted in Hq.
  rewrite (startJob_async env jobId job st res op Hvalid Hstart Hop Hne).
  cbv zeta.
  destruct (queue_enqueue env "onJobPoll" (extension_id env) (job_path jobId)
              (ceil_div_1000 (POLL_INTERVAL_MS env)) 60) as [[] | e];
    [| discriminate].
  unfold final_state. cbn [snd store].
  assert (Hexp :
            outcome_of
              (isJobExpired env
                 (apply_update
                    (apply_update (store st)
                       (starting_payload (clock env (ticks st))))
                    (running_payload env op (clock env (S (ticks st)))))
                 st')
            = Ok (Z.ltb (clock env (S (ticks st)) + JOB_TTL_MS env)
                        (clock env (ticks st')))).
  { unfold isJobExpired.
    change (meta_field ttl
              (apply_update
                 (apply_update (store st)
                    (starting_payload (clock env (ticks st))))
                 (running_payload env op (clock env (S (ticks st))))))
      with (Some (clock env (S (ticks st)) + JOB_TTL_MS env)).
    cbn [truthy_opt_number].
    destruct (Z.eqb_spec (clock env (S (ticks st)) + JOB_TTL_MS env) 0)
      as [Hz | _]; [contradiction |].
    run_monad. reflexivity. }
  split; [reflexivity | split; [exact Hexp |]].
  intros Hle. rewrite Hexp. f_equal. apply Z.ltb_ge. assumption.
Qed.

Lemma X23_running_job_witness :
  outcome_of
    (isJobExpired Samples.sample_env
       (store Samples.after_first_delivery)
       (mkState (store Samples.after_first_delivery) 1000 []))
  = Ok false.
Proof.
  pose proof (X23_running_job_expires_after_ttl Samples.sample_env "job-1"
                Samples.video_job (init_state Samples.video_job)
                (mkState (store Samples.after_first_delivery) 1000 [])
                (mkStartResult (Some "operations/op-1") None None)
                "operations/op-1" eq_refl eq_refl eq_refl
                ltac:(discriminate) eq_refl ltac:(discriminate)) as H.
  cbv zeta in H. destruct H as (_ & _ & Hnot).
  apply Hnot. discriminate.
Defined.

(** ** Stale fields *)

(** X24: a failing run of [startJob] clears nothing: whenever the job ends
    [failed], [response] and [files] of the record are what they were
    before the run, so a record that had succeeded earlier keeps its old
    result beside the new error. *)
Theorem X24_failure_keeps_earlier_result :
  forall (env : Env) (jobId : string) (job : JobNode) (st : State),
    status (store (final_state (startJob env jobId job st))) = failed ->
    response (store (final_state (startJob env jobId job st)))
    = response (store st)
    /\ files (store (final_state (startJob env jobId job st)))
       = files (store st)
    /\ exists e, error (store (final_state (startJob env jobId job st)))
                 = Some e.
Proof.
  intros env jobId job st.
  all_branches env jobId job st; read_result;
    first [ intros Hfailed; cbn in Hfailed; discriminate Hfailed
          | intros _; repeat split; eexists; reflexivity ].
Qed.

Lemma X24_failure_keeps_earlier_result_witness :
  files
    (store (final_state
              (startJob FailingSamples.rejecting_env "job-2"
                 Samples.image_job
                 (final_state
                    (startJob Samples.sample_env "job-2" Samples.image_job
                       (init_state Samples.image_job))))))
  = files
      (store (final_state
                (startJob Samples.sample_env "job-2" Samples.image_job
                   (init_state Samples.image_job)))).
Proof.
  exact (proj1 (proj2
           (X24_failure_keeps_earlier_result FailingSamples.rejecting_env
              "job-2" Samples.image_job
              (final_state
                 (startJob Samples.sample_env "job-2" Samples.image_job
                    (init_state Samples.image_job)))
              eq_refl))).
Defined.
